(** * The watch-history query pipeline of [pages/profile/History.tsx]

    A shallow embedding of the [History] component: the filter and sort
    stages of [applyFilters], the values derived at render time
    (pagination, statistics, grouping) and the event handlers that change
    the component's state.

    The host language is modelled in [Module JS]: the truthiness tests,
    [Array.prototype.slice], [Array.prototype.sort], the own-property
    order of ordinary objects and [Object.entries].  What the browser
    supplies (case mapping, collation, date parsing and formatting) is the
    interface [Host]; [RefHost] is one instance, used to evaluate the
    component on concrete histories. *)

From Stdlib Require Import ZArith List String Ascii Bool Lia.
From Stdlib Require Import Permutation Sorted DecimalString QArith Qround.
From Stdlib Require Import OrderedTypeEx.
Import ListNotations.

Local Open Scope string_scope.
Local Open Scope list_scope.
Local Open Scope Z_scope.

(* ------------------------------------------------------------------ *)
(** * Host-language primitives *)

Module JS.

(** A JS number as the component uses it: an integer or [NaN].  A [Date]
    is its time value, milliseconds since the epoch, [NaN] for an invalid
    date. *)
Inductive number : Type :=
| NaN : number
| Int (z : Z) : number.

(** ToBoolean on a string: only the empty string is falsy. *)
Definition truthy (s : string) : bool := negb (s =? "")%string.

(** [x || d] on an optional string. *)
Definition or_str (o : option string) (d : string) : string :=
  match o with
  | Some s => if truthy s then s else d
  | None => d
  end.

(** [x || 0] on an optional integer: [undefined] and [0] are falsy. *)
Definition or_zero (o : option Z) : Z :=
  match o with
  | Some z => if z =? 0 then 0 else z
  | None => 0
  end.

(** [s.includes(q)] *)
Fixpoint includes (s q : string) : bool :=
  prefix q s ||
  match s with
  | EmptyString => false
  | String _ s' => includes s' q
  end.

(** [l.includes(x)] on an array of strings. *)
Definition array_includes (l : list string) (x : string) : bool :=
  existsb (String.eqb x) l.

(** Number.prototype.toString on an integer or [NaN]. *)
Definition Number_toString (n : number) : string :=
  match n with
  | NaN => "NaN"
  | Int z => NilZero.string_of_int (Z.to_int z)
  end.

(** [d1 > d2] on two dates: false as soon as one side is [NaN]. *)
Definition date_gt (d1 d2 : number) : bool :=
  match d1, d2 with
  | Int a, Int b => b <? a
  | _, _ => false
  end.

Definition date_lt (d1 d2 : number) : bool := date_gt d2 d1.

(** [a - b] on numbers. *)
Definition sub (a b : number) : number :=
  match a, b with
  | Int x, Int y => Int (x - y)
  | _, _ => NaN
  end.

(** [Array.prototype.slice(start, end)]: negative indices count from the
    end, both are clamped to the length. *)
Definition slice {A : Type} (l : list A) (start fin : Z) : list A :=
  let len := Z.of_nat (List.length l) in
  let k := if start <? 0 then Z.max (len + start) 0 else Z.min start len in
  let f := if fin <? 0 then Z.max (len + fin) 0 else Z.min fin len in
  firstn (Z.to_nat (f - k)) (skipn (Z.to_nat k) l).

(** [Math.ceil(a / b)] and [Math.round(a / b)] on integers, the quotient
    taken exactly.  (For [|a| < 2^53] and [b <> 0] the double quotient
    rounds to the same integer.  [a / 0] is [NaN] or an infinity in JS and
    has no counterpart here: the callers divide by the page size and by
    60.) *)
Definition Math_ceil (q : Q) : Z := Qceiling q.
Definition Math_round (q : Q) : Z := Qfloor (q + (1 # 2)).

(** ** [Array.prototype.sort]

    The sort is stable.  A comparator's result [v] puts [a] before [b]
    when [v < 0], after it when [v > 0], and [NaN] counts as [0].  For a
    consistent comparator every stable sort returns the same array, here
    computed by insertion; for an inconsistent one the order is
    implementation-defined and this is one possible outcome. *)
Definition cmp_sign (v : number) : Z :=
  match v with
  | NaN => 0
  | Int z => z
  end.

Section Sort.
Context {A : Type} (comparefn : A -> A -> number).

Fixpoint sort_insert (x : A) (l : list A) : list A :=
  match l with
  | [] => [x]
  | y :: l' =>
      if cmp_sign (comparefn x y) <=? 0 then x :: y :: l'
      else y :: sort_insert x l'
  end.

Fixpoint sort (l : list A) : list A :=
  match l with
  | [] => []
  | x :: l' => sort_insert x (sort l')
  end.

(** The comparator lets [a] stand before [b]. *)
Definition before (a b : A) : Prop := cmp_sign (comparefn a b) <= 0.
End Sort.

(** ** [new Set(l)] read back with [Array.from]

    A set keeps one of each value, in the order of insertion. *)
Section Distinct.
Context {A : Type} (same : A -> A -> bool).

Definition Set_add (seen : list A) (x : A) : list A :=
  if existsb (same x) seen then seen else seen ++ [x].

Definition Array_from_Set (l : list A) : list A := fold_left Set_add l [].
End Distinct.

(** [l.filter(Boolean)] on strings that may be [undefined], and on
    numbers that may be [null]: [undefined], [null], the empty string,
    [NaN] and [0] are dropped. *)
Definition filter_Boolean_string (l : list (option string)) : list string :=
  flat_map (fun o => match o with
                     | Some v => if truthy v then [v] else []
                     | None => []
                     end) l.

Definition filter_Boolean_number (l : list (option number)) : list Z :=
  flat_map (fun o => match o with
                     | Some (Int z) => if z =? 0 then [] else [z]
                     | Some NaN | None => []
                     end) l.

(** [Math.max(...values, last)] *)
Definition Math_max (values : list Z) (last : Z) : Z :=
  fold_right Z.max last values.

(** ** Ordinary objects used as maps

    An object is the list of its own string-keyed properties in creation
    order.  [Object.entries] does not return that order as it is: the keys
    that are array indices (canonical decimal strings below [2^32 - 1])
    come first, in ascending numeric order, and the other keys follow in
    creation order. *)
Definition Obj (V : Type) : Type := list (string * V).

Section Objects.
Context {V : Type}.

Fixpoint obj_get (o : Obj V) (k : string) : option V :=
  match o with
  | [] => None
  | (k', v) :: o' => if (k' =? k)%string then Some v else obj_get o' k
  end.

(** [o[k] = v]: an existing property keeps its place. *)
Fixpoint obj_set (o : Obj V) (k : string) (v : V) : Obj V :=
  match o with
  | [] => [(k, v)]
  | (k', v') :: o' =>
      if (k' =? k)%string then (k', v) :: o' else (k', v') :: obj_set o' k v
  end.

Definition array_index (k : string) : option Z :=
  match NilZero.uint_of_string k with
  | Some u =>
      let n := Z.of_uint u in
      if (Number_toString (Int n) =? k)%string && (n <? 2 ^ 32 - 1)
      then Some n else None
  | None => None
  end.

Definition is_index (k : string) : bool :=
  match array_index k with
  | Some _ => true
  | None => false
  end.

Definition index_of (k : string) : Z :=
  match array_index k with
  | Some n => n
  | None => 0
  end.

Definition compare_index (e e' : string * V) : number :=
  Int (index_of (fst e) - index_of (fst e')).

Definition ascending_index (l : list (string * V)) : list (string * V) :=
  sort compare_index l.

Definition Object_entries (o : Obj V) : list (string * V) :=
  ascending_index (filter (fun e => is_index (fst e)) o)
  ++ filter (fun e => negb (is_index (fst e))) o.
End Objects.

End JS.

(* ------------------------------------------------------------------ *)
(** * What the browser supplies *)

(** The string and date services the component calls.  A [Date] built by
    [new Date(s)] is represented by its time value [Date_parse s];
    [getFullYear] and [toLocaleDateString_month_year] are applied to valid
    time values only, the invalid date being handled in [Date_getFullYear]
    and [Date_monthLabel] below. *)
Class Host : Type := {
  toLowerCase : string -> string;
  trim : string -> string;
  localeCompare : string -> string -> Z;
  Date_parse : string -> JS.number;
  getFullYear : Z -> Z;
  (** [toLocaleDateString('en-US', { year: 'numeric', month: 'long' })] *)
  toLocaleDateString_month_year : Z -> string
}.

(* ------------------------------------------------------------------ *)
(** * Data model *)

(** Modelled from the spec: the declaration of [FilmHistory] (module
    [api/users]) is missing; the fields are the ones [History.tsx] reads,
    optional where the spec's HistoryEntry says so.  [dateAdded] is the ISO
    string that [loadHistory] attaches to every entry. *)
Record FilmHistory : Type := {
  id : string;
  name : string;
  genre : option string;
  rating : option string;
  duration : option Z;
  description : option string;
  dateAdded : option string
}.

Inductive SortOption : Type :=
| by_name | by_rating | by_duration | by_dateAdded.

Inductive GroupOption : Type :=
| group_none | group_month | group_year.

Record DateRange : Type := { from : string; to : string }.

(** The [useState] cells of the component ([loading] and [error] left
    out: nothing below reads them). *)
Record State : Type := {
  movies : list FilmHistory;
  filteredMovies : list FilmHistory;
  searchQuery : string;
  selectedGenres : list string;
  ratingFilter : string;
  durationFilter : string;
  yearFilter : string;
  dateRange : DateRange;
  sortBy : SortOption;
  groupBy : GroupOption;
  itemsPerPage : Z;
  currentPage : Z
}.

Definition setFilteredMovies (l : list FilmHistory) (s : State) : State :=
  {| movies := movies s; filteredMovies := l;
     searchQuery := searchQuery s; selectedGenres := selectedGenres s;
     ratingFilter := ratingFilter s; durationFilter := durationFilter s;
     yearFilter := yearFilter s; dateRange := dateRange s;
     sortBy := sortBy s; groupBy := groupBy s;
     itemsPerPage := itemsPerPage s; currentPage := currentPage s |}.

Definition setCurrentPage (p : Z) (s : State) : State :=
  {| movies := movies s; filteredMovies := filteredMovies s;
     searchQuery := searchQuery s; selectedGenres := selectedGenres s;
     ratingFilter := ratingFilter s; durationFilter := durationFilter s;
     yearFilter := yearFilter s; dateRange := dateRange s;
     sortBy := sortBy s; groupBy := groupBy s;
     itemsPerPage := itemsPerPage s; currentPage := p |}.

Definition setMovies (l : list FilmHistory) (s : State) : State :=
  {| movies := l; filteredMovies := filteredMovies s;
     searchQuery := searchQuery s; selectedGenres := selectedGenres s;
     ratingFilter := ratingFilter s; durationFilter := durationFilter s;
     yearFilter := yearFilter s; dateRange := dateRange s;
     sortBy := sortBy s; groupBy := groupBy s;
     itemsPerPage := itemsPerPage s; currentPage := currentPage s |}.

Definition setSearchQuery (v : string) (s : State) : State :=
  {| movies := movies s; filteredMovies := filteredMovies s;
     searchQuery := v; selectedGenres := selectedGenres s;
     ratingFilter := ratingFilter s; durationFilter := durationFilter s;
     yearFilter := yearFilter s; dateRange := dateRange s;
     sortBy := sortBy s; groupBy := groupBy s;
     itemsPerPage := itemsPerPage s; currentPage := currentPage s |}.

Definition setSelectedGenres (v : list string) (s : State) : State :=
  {| movies := movies s; filteredMovies := filteredMovies s;
     searchQuery := searchQuery s; selectedGenres := v;
     ratingFilter := ratingFilter s; durationFilter := durationFilter s;
     yearFilter := yearFilter s; dateRange := dateRange s;
     sortBy := sortBy s; groupBy := groupBy s;
     itemsPerPage := itemsPerPage s; currentPage := currentPage s |}.

Definition setRatingFilter (v : string) (s : State) : State :=
  {| movies := movies s; filteredMovies := filteredMovies s;
     searchQuery := searchQuery s; selectedGenres := selectedGenres s;
     ratingFilter := v; durationFilter := durationFilter s;
     yearFilter := yearFilter s; dateRange := dateRange s;
     sortBy := sortBy s; groupBy := groupBy s;
     itemsPerPage := itemsPerPage s; currentPage := currentPage s |}.

Definition setDurationFilter (v : string) (s : State) : State :=
  {| movies := movies s; filteredMovies := filteredMovies s;
     searchQuery := searchQuery s; selectedGenres := selectedGenres s;
     ratingFilter := ratingFilter s; durationFilter := v;
     yearFilter := yearFilter s; dateRange := dateRange s;
     sortBy := sortBy s; groupBy := groupBy s;
     itemsPerPage := itemsPerPage s; currentPage := currentPage s |}.

Definition setYearFilter (v : string) (s : State) : State :=
  {| movies := movies s; filteredMovies := filteredMovies s;
     searchQuery := searchQuery s; selectedGenres := selectedGenres s;
     ratingFilter := ratingFilter s; durationFilter := durationFilter s;
     yearFilter := v; dateRange := dateRange s;
     sortBy := sortBy s; groupBy := groupBy s;
     itemsPerPage := itemsPerPage s; currentPage := currentPage s |}.

Definition setDateRange (v : DateRange) (s : State) : State :=
  {| movies := movies s; filteredMovies := filteredMovies s;
     searchQuery := searchQuery s; selectedGenres := selectedGenres s;
     ratingFilter := ratingFilter s; durationFilter := durationFilter s;
     yearFilter := yearFilter s; dateRange := v;
     sortBy := sortBy s; groupBy := groupBy s;
     itemsPerPage := itemsPerPage s; currentPage := currentPage s |}.

Definition setSortBy (v : SortOption) (s : State) : State :=
  {| movies := movies s; filteredMovies := filteredMovies s;
     searchQuery := searchQuery s; selectedGenres := selectedGenres s;
     ratingFilter := ratingFilter s; durationFilter := durationFilter s;
     yearFilter := yearFilter s; dateRange := dateRange s;
     sortBy := v; groupBy := groupBy s;
     itemsPerPage := itemsPerPage s; currentPage := currentPage s |}.

Definition setGroupBy (v : GroupOption) (s : State) : State :=
  {| movies := movies s; filteredMovies := filteredMovies s;
     searchQuery := searchQuery s; selectedGenres := selectedGenres s;
     ratingFilter := ratingFilter s; durationFilter := durationFilter s;
     yearFilter := yearFilter s; dateRange := dateRange s;
     sortBy := sortBy s; groupBy := v;
     itemsPerPage := itemsPerPage s; currentPage := currentPage s |}.

Definition setItemsPerPage (v : Z) (s : State) : State :=
  {| movies := movies s; filteredMovies := filteredMovies s;
     searchQuery := searchQuery s; selectedGenres := selectedGenres s;
     ratingFilter := ratingFilter s; durationFilter := durationFilter s;
     yearFilter := yearFilter s; dateRange := dateRange s;
     sortBy := sortBy s; groupBy := groupBy s;
     itemsPerPage := v; currentPage := currentPage s |}.

(* ------------------------------------------------------------------ *)
(** * The component *)

Section History.
Context {host : Host}.

(** [(movie as any).dateAdded ? new Date((movie as any).dateAdded) : null]
    ([None] is [null]; a [Date] object is always truthy, valid or not). *)
Definition movieDate (movie : FilmHistory) : option JS.number :=
  match dateAdded movie with
  | Some d => if JS.truthy d then Some (Date_parse d) else None
  | None => None
  end.

(** [x?.toLowerCase().includes(query)] *)
Definition includes_opt (x : option string) (query : string) : bool :=
  match x with
  | Some v => JS.includes (toLowerCase v) query
  | None => false
  end.

(** ** The callbacks of [applyFilters] *)

Definition searchPred (query : string) (movie : FilmHistory) : bool :=
  JS.includes (toLowerCase (name movie)) query
  || includes_opt (genre movie) query
  || includes_opt (description movie) query.

Definition genrePred (selected : list string) (movie : FilmHistory) : bool :=
  match genre movie with
  | Some g => JS.truthy g && JS.array_includes selected g
  | None => false
  end.

Definition ratingPred (filter : string) (movie : FilmHistory) : bool :=
  match rating movie with
  | Some r => (r =? filter)%string
  | None => false
  end.

Definition durationPred (filter : string) (movie : FilmHistory) : bool :=
  let duration := JS.or_zero (duration movie) in
  if (filter =? "short")%string then duration <? 90
  else if (filter =? "medium")%string then (90 <=? duration) && (duration <=? 120)
  else if (filter =? "long")%string then 120 <? duration
  else true.

Definition datePred (range : DateRange) (movie : FilmHistory) : bool :=
  match movieDate movie with
  | None => true
  | Some d =>
      if JS.truthy (from range) && JS.date_gt (Date_parse (from range)) d
      then false
      else if JS.truthy (to range) && JS.date_lt (Date_parse (to range)) d
      then false
      else true
  end.

(** [getTime()] of the entry's date, [0] without one. *)
Definition sortDate (movie : FilmHistory) : JS.number :=
  match movieDate movie with
  | Some d => d
  | None => JS.Int 0
  end.

(** The comparator handed to [result.sort]. *)
Definition compareMovies (key : SortOption) (a b : FilmHistory) : JS.number :=
  match key with
  | by_name =>
      JS.Int (localeCompare (JS.or_str (Some (name a)) "")
                            (JS.or_str (Some (name b)) ""))
  | by_rating =>
      JS.Int (localeCompare (JS.or_str (rating b) "") (JS.or_str (rating a) ""))
  | by_duration =>
      JS.Int (JS.or_zero (duration b) - JS.or_zero (duration a))
  | by_dateAdded =>
      let dateA := sortDate a in
      let dateB := sortDate b in
      JS.sub dateB dateA
  end.

(** ** [applyFilters] *)

(** Each step of [applyFilters] rebinds [result]; one definition per
    step. *)

(* Search filter *)
Definition searchStage (s : State) (result : list FilmHistory)
    : list FilmHistory :=
  if JS.truthy (trim (searchQuery s)) then
    let query := toLowerCase (searchQuery s) in
    filter (searchPred query) result
  else result.

(* Genre filter (multiple selection) *)
Definition genreStage (s : State) (result : list FilmHistory)
    : list FilmHistory :=
  if 0 <? Z.of_nat (List.length (selectedGenres s)) then
    filter (genrePred (selectedGenres s)) result
  else result.

(* Rating filter *)
Definition ratingStage (s : State) (result : list FilmHistory)
    : list FilmHistory :=
  if negb (ratingFilter s =? "all")%string then
    filter (ratingPred (ratingFilter s)) result
  else result.

(* Duration filter *)
Definition durationStage (s : State) (result : list FilmHistory)
    : list FilmHistory :=
  if negb (durationFilter s =? "all")%string then
    filter (durationPred (durationFilter s)) result
  else result.

(* Year filter: the body of the [if] is empty *)
Definition yearStage (s : State) (result : list FilmHistory)
    : list FilmHistory :=
  if negb (yearFilter s =? "all")%string then result else result.

(* Date range filter *)
Definition dateStage (s : State) (result : list FilmHistory)
    : list FilmHistory :=
  if JS.truthy (from (dateRange s)) || JS.truthy (to (dateRange s)) then
    filter (datePred (dateRange s)) result
  else result.

(** The value of [result] when the sort is reached. *)
Definition filterStage (s : State) : list FilmHistory :=
  let result := movies s in
  let result := searchStage s result in
  let result := genreStage s result in
  let result := ratingStage s result in
  let result := durationStage s result in
  let result := yearStage s result in
  let result := dateStage s result in
  result.

Definition applyFilters (s : State) : State :=
  let result := JS.sort (compareMovies (sortBy s)) (filterStage s) in
  setCurrentPage 1 (setFilteredMovies result s).

Definition resetFilters (s : State) : State :=
  setDateRange {| from := ""; to := "" |}
    (setYearFilter "all"
       (setDurationFilter "all"
          (setRatingFilter "all"
             (setSelectedGenres [] (setSearchQuery "" s))))).

Definition toggleGenre (g : string) (s : State) : State :=
  let prev := selectedGenres s in
  setSelectedGenres
    (if JS.array_includes prev g
     then filter (fun g' => negb (g' =? g)%string) prev
     else prev ++ [g]) s.

(** ** Values computed at each render *)

(* Pagination *)
Definition totalPages (s : State) : Z :=
  JS.Math_ceil (inject_Z (Z.of_nat (List.length (filteredMovies s)))
                / inject_Z (itemsPerPage s)).
Definition startIndex (s : State) : Z := (currentPage s - 1) * itemsPerPage s.
Definition endIndex (s : State) : Z := startIndex s + itemsPerPage s.
Definition currentMovies (s : State) : list FilmHistory :=
  JS.slice (filteredMovies s) (startIndex s) (endIndex s).

(* Statistics *)
Definition totalMovies (s : State) : Z := Z.of_nat (List.length (movies s)).
Definition totalMinutes (s : State) : Z :=
  fold_left (fun sum movie => sum + JS.or_zero (duration movie)) (movies s) 0.
Definition totalHours (s : State) : Z :=
  JS.Math_round (inject_Z (totalMinutes s) / inject_Z 60).
Definition filteredCount (s : State) : Z :=
  Z.of_nat (List.length (filteredMovies s)).

(* Grouping *)

Definition Date_getFullYear (d : JS.number) : JS.number :=
  match d with
  | JS.Int t => JS.Int (getFullYear t)
  | JS.NaN => JS.NaN
  end.

Definition Date_monthLabel (d : JS.number) : string :=
  match d with
  | JS.Int t => toLocaleDateString_month_year t
  | JS.NaN => "Invalid Date"
  end.

(** The label under which the [forEach] callback files an entry. *)
Definition groupLabel (by_ : GroupOption) (movie : FilmHistory) : string :=
  match movieDate movie with
  | None => "Unknown"
  | Some d =>
      match by_ with
      | group_month => Date_monthLabel d
      | group_year => JS.Number_toString (Date_getFullYear d)
      | group_none => ""
      end
  end.

(** [x || []]: an array is always truthy. *)
Definition or_empty (x : option (list FilmHistory)) : list FilmHistory :=
  match x with
  | Some a => a
  | None => []
  end.

(** [groups[key] = groups[key] || []; groups[key].push(movie)]
    (own properties only: no label the component computes names a
    property inherited from [Object.prototype]). *)
Definition pushTo (groups : JS.Obj (list FilmHistory)) (key : string)
    (movie : FilmHistory) : JS.Obj (list FilmHistory) :=
  let groups := JS.obj_set groups key (or_empty (JS.obj_get groups key)) in
  JS.obj_set groups key (or_empty (JS.obj_get groups key) ++ [movie]).

Definition groupedMovies (s : State) : JS.Obj (list FilmHistory) :=
  match groupBy s with
  | group_none => [("All Movies", currentMovies s)]
  | by_ =>
      fold_left (fun groups movie => pushTo groups (groupLabel by_ movie) movie)
                (currentMovies s) []
  end.

(* Get unique genres and years from movies *)
Definition availableGenres (s : State) : list string :=
  JS.Array_from_Set String.eqb
    (JS.filter_Boolean_string (map genre (movies s))).

Definition availableYears (s : State) : list Z :=
  JS.sort (fun a b => JS.Int (b - a))
    (JS.Array_from_Set Z.eqb
       (JS.filter_Boolean_number
          (map (fun m => match movieDate m with
                         | Some d => Some (Date_getFullYear d)
                         | None => None
                         end) (movies s)))).

(** What the pagination bar shows: it is rendered when
    [totalPages > 1], with the range
    [{startIndex + 1}-{Math.min(endIndex, filteredCount)}]. *)
Definition paginationShown (s : State) : bool := 1 <? totalPages s.
Definition rangeFirst (s : State) : Z := startIndex s + 1.
Definition rangeLast (s : State) : Z := Z.min (endIndex s) (filteredCount s).

(** ** Events

    One constructor per handler wired in the JSX, plus the arrival of the
    loaded history, carrying the entries as [loadHistory] stores them,
    dates attached. *)
Inductive Event : Type :=
| SearchInput (v : string)
| GenreChip (g : string)
| RatingSelect (v : string)
| DurationSelect (v : string)
| DateFromInput (v : string)
| DateToInput (v : string)
| ResetClick
| SortSelect (v : SortOption)
| GroupSelect (v : GroupOption)
| PerPageSelect (v : Z)
| PreviousClick
| NextClick
| HistoryLoaded (history : list FilmHistory).

(** The state after the handler's batched updates, and whether a
    dependency of the effect that holds an array or an object received a
    freshly allocated value (such a dependency never compares equal to its
    previous value). *)
Definition handle (e : Event) (s : State) : State * bool :=
  match e with
  | SearchInput v => (setSearchQuery v s, false)
  | GenreChip g => (toggleGenre g s, true)
  | RatingSelect v => (setRatingFilter v s, false)
  | DurationSelect v => (setDurationFilter v s, false)
  | DateFromInput v =>
      (setDateRange {| from := v; to := to (dateRange s) |} s, true)
  | DateToInput v =>
      (setDateRange {| from := from (dateRange s); to := v |} s, true)
  | ResetClick => (resetFilters s, true)
  | SortSelect v => (setSortBy v s, false)
  | GroupSelect v => (setGroupBy v s, false)
  | PerPageSelect v => (setCurrentPage 1 (setItemsPerPage v s), false)
  | PreviousClick =>
      (if (1 <? totalPages s) && negb (currentPage s =? 1)
       then setCurrentPage (Z.max 1 (currentPage s - 1)) s else s, false)
  | NextClick =>
      (if (1 <? totalPages s) && negb (currentPage s =? totalPages s)
       then setCurrentPage (Z.min (totalPages s) (currentPage s + 1)) s
       else s, false)
  | HistoryLoaded history => (setMovies history s, true)
  end.

Definition sortOption_eqb (a b : SortOption) : bool :=
  match a, b with
  | by_name, by_name | by_rating, by_rating
  | by_duration, by_duration | by_dateAdded, by_dateAdded => true
  | _, _ => false
  end.

(** The string-valued dependencies of the effect, compared as
    [Object.is] compares them. *)
Definition primitiveDepsChanged (s s' : State) : bool :=
  negb ((searchQuery s =? searchQuery s')%string
        && (ratingFilter s =? ratingFilter s')%string
        && (durationFilter s =? durationFilter s')%string
        && (yearFilter s =? yearFilter s')%string
        && sortOption_eqb (sortBy s) (sortBy s')).

(** An event, the render that follows it, and the effect
    [useEffect(() => applyFilters(), [movies, searchQuery, ...])] when one
    of its dependencies changed. *)
Definition dispatch (e : Event) (s : State) : State :=
  let (s', fresh) := handle e s in
  if fresh || primitiveDepsChanged s s' then applyFilters s' else s'.

End History.

(* ------------------------------------------------------------------ *)
(** * The statistics of the profile page

    [Profile] receives the watched movies and counts them by genre.  The
    declaration of [Movie] (module [types]) is missing: the record keeps
    the one field these statistics read, a string since it indexes a
    [Record<string, number>]. *)

Module Profile.

Record Movie : Type := { genre : string }.

(** The names that an empty object inherits from [Object.prototype].
    Read as [acc[movie.genre]] they are not [undefined]; the count below
    describes the genres that are none of them. *)
Definition inherited : list string :=
  ["constructor"; "hasOwnProperty"; "isPrototypeOf"; "propertyIsEnumerable";
   "toLocaleString"; "toString"; "valueOf"; "__proto__";
   "__defineGetter__"; "__defineSetter__"; "__lookupGetter__";
   "__lookupSetter__"].

Definition plainGenre (movie : Movie) : bool :=
  negb (JS.array_includes inherited (genre movie)).

(** [x || 0] on a number that may be [undefined]. *)
Definition or_zero (x : option Z) : Z :=
  match x with
  | Some z => z
  | None => 0
  end.

(** The [reduce] callback:
    [acc[movie.genre] = (acc[movie.genre] || 0) + 1; return acc]
    (own properties only, as for the groups of the history page). *)
Definition countGenre (acc : JS.Obj Z) (movie : Movie) : JS.Obj Z :=
  JS.obj_set acc (genre movie) (or_zero (JS.obj_get acc (genre movie)) + 1).

Definition totalMovies (movies : list Movie) : Z :=
  Z.of_nat (List.length movies).

Definition favoriteGenres (movies : list Movie) : JS.Obj Z :=
  fold_left countGenre movies [].

(** [Object.values(o)] *)
Definition Object_values (o : JS.Obj Z) : list Z :=
  map snd (JS.Object_entries o).

Definition topGenreCount (movies : list Movie) : Z :=
  JS.Math_max (Object_values (favoriteGenres movies)) 0.

End Profile.

(* ------------------------------------------------------------------ *)
(** * A reference host

    ASCII case mapping and white space, collation by code unit, the two
    date formats the component meets ([YYYY-MM-DD] from the date inputs,
    [YYYY-MM-DDTHH:mm:ss.sssZ] from [toISOString]), and the UTC time
    zone. *)

Module RefHost.

Definition lower_char (c : ascii) : ascii :=
  let n := nat_of_ascii c in
  if ((65 <=? n) && (n <=? 90))%nat then ascii_of_nat (n + 32) else c.

Fixpoint lower (s : string) : string :=
  match s with
  | EmptyString => EmptyString
  | String c s' => String (lower_char c) (lower s')
  end.

Definition is_space (c : ascii) : bool :=
  let n := nat_of_ascii c in
  ((n =? 32) || ((9 <=? n) && (n <=? 13)))%nat.

Fixpoint trim_start (s : string) : string :=
  match s with
  | EmptyString => EmptyString
  | String c s' => if is_space c then trim_start s' else s
  end.

Definition reverse (s : string) : string :=
  string_of_list_ascii (rev (list_ascii_of_string s)).

Definition trim_both (s : string) : string :=
  reverse (trim_start (reverse (trim_start s))).

Definition compare_units (a b : string) : Z :=
  match String.compare a b with
  | Lt => -1
  | Eq => 0
  | Gt => 1
  end.

(** Days since 1970-01-01 of a proleptic Gregorian date, and back. *)
Definition days_from_civil (y m d : Z) : Z :=
  let y := if m <=? 2 then y - 1 else y in
  let era := y / 400 in
  let yoe := y - era * 400 in
  let doy := (153 * (if 2 <? m then m - 3 else m + 9) + 2) / 5 + d - 1 in
  let doe := yoe * 365 + yoe / 4 - yoe / 100 + doy in
  era * 146097 + doe - 719468.

Definition civil_from_days (z : Z) : Z * Z * Z :=
  let z := z + 719468 in
  let era := z / 146097 in
  let doe := z - era * 146097 in
  let yoe := (doe - doe / 1460 + doe / 36524 - doe / 146096) / 365 in
  let y := yoe + era * 400 in
  let doy := doe - (365 * yoe + yoe / 4 - yoe / 100) in
  let mp := (5 * doy + 2) / 153 in
  let d := doy - (153 * mp + 2) / 5 + 1 in
  let m := if mp <? 10 then mp + 3 else mp - 9 in
  (if m <=? 2 then y + 1 else y, m, d).

Definition is_leap (y : Z) : bool :=
  ((y mod 4 =? 0) && negb (y mod 100 =? 0)) || (y mod 400 =? 0).

Definition days_in_month (y m : Z) : Z :=
  if m =? 2 then (if is_leap y then 29 else 28)
  else if (m =? 4) || (m =? 6) || (m =? 9) || (m =? 11) then 30
  else 31.

(** The decimal field of [len] digits at offset [i]. *)
Definition field (s : string) (i len : nat) : option Z :=
  let f := substring i len s in
  if (String.length f =? len)%nat
  then option_map Z.of_uint (NilZero.uint_of_string f)
  else None.

Definition sep (s : string) (i : nat) (c : string) : bool :=
  (substring i 1 s =? c)%string.

Definition ms_per_day : Z := 86400000.

Definition parse_date (s : string) : JS.number :=
  match field s 0 4, field s 5 2, field s 8 2 with
  | Some y, Some m, Some d =>
      if sep s 4 "-" && sep s 7 "-"
         && (1 <=? m) && (m <=? 12) && (1 <=? d) && (d <=? days_in_month y m)
      then JS.Int (days_from_civil y m d * ms_per_day)
      else JS.NaN
  | _, _, _ => JS.NaN
  end.

Definition parse_time (s : string) : JS.number :=
  match field s 11 2, field s 14 2, field s 17 2, field s 20 3 with
  | Some h, Some mi, Some sec, Some ms =>
      if sep s 10 "T" && sep s 13 ":" && sep s 16 ":" && sep s 19 "."
         && sep s 23 "Z" && (h <=? 23) && (mi <=? 59) && (sec <=? 59)
      then JS.Int (((h * 60 + mi) * 60 + sec) * 1000 + ms)
      else JS.NaN
  | _, _, _, _ => JS.NaN
  end.

Definition parse (s : string) : JS.number :=
  if (String.length s =? 10)%nat then parse_date s
  else if (String.length s =? 24)%nat then
    match parse_date s, parse_time s with
    | JS.Int d, JS.Int t => JS.Int (d + t)
    | _, _ => JS.NaN
    end
  else JS.NaN.

Definition utc_year (t : Z) : Z :=
  let '(y, _, _) := civil_from_days (t / ms_per_day) in y.

Definition utc_month (t : Z) : Z :=
  let '(_, m, _) := civil_from_days (t / ms_per_day) in m.

Definition month_name (m : Z) : string :=
  if m =? 1 then "January" else if m =? 2 then "February"
  else if m =? 3 then "March" else if m =? 4 then "April"
  else if m =? 5 then "May" else if m =? 6 then "June"
  else if m =? 7 then "July" else if m =? 8 then "August"
  else if m =? 9 then "September" else if m =? 10 then "October"
  else if m =? 11 then "November" else "December".

Definition month_year (t : Z) : string :=
  (month_name (utc_month t) ++ " "
   ++ JS.Number_toString (JS.Int (utc_year t)))%string.

#[export] Instance ref_host : Host := {|
  toLowerCase := lower;
  trim := trim_both;
  localeCompare := compare_units;
  Date_parse := parse;
  getFullYear := utc_year;
  toLocaleDateString_month_year := month_year
|}.

End RefHost.


(* ------------------------------------------------------------------ *)
(** * Vocabulary of the statements *)

(** The entries of the first list are entries of the second, in the same
    relative order. *)

Inductive subsequence {A : Type} : list A -> list A -> Prop :=
| subsequence_nil : subsequence [] []
| subsequence_skip (x : A) (l1 l2 : list A) :
    subsequence l1 l2 -> subsequence l1 (x :: l2)
| subsequence_keep (x : A) (l1 l2 : list A) :
    subsequence l1 l2 -> subsequence (x :: l1) (x :: l2).

#[local] Hint Constructors subsequence : core.

(** A duration, [0] when the entry has none. *)
Definition durationOf (movie : FilmHistory) : Z :=
  match duration movie with
  | Some z => z
  | None => 0
  end.

Definition sumDurations (base : list FilmHistory) : Z :=
  fold_right Z.add 0 (map durationOf base).


(** An entry without a date: the field is missing or empty. *)
Definition undated (movie : FilmHistory) : Prop :=
  dateAdded movie = None \/ dateAdded movie = Some "".

(** What a change of filter, sort key or page size changes. *)
Definition queryInputs (s : State)
    : string * list string * string * string * string * DateRange
      * SortOption * Z :=
  (searchQuery s, selectedGenres s, ratingFilter s, durationFilter s,
   yearFilter s, dateRange s, sortBy s, itemsPerPage s).

(** The page slice that page number [p] would show. *)
Definition pageOf {host : Host} (s : State) (p : Z) : list FilmHistory :=
  currentMovies (setCurrentPage p s).

(** The page numbers [1 .. n]. *)
Definition pageNumbers (n : Z) : list Z :=
  map (fun i => Z.of_nat i + 1) (seq 0 (Z.to_nat n)).

(** The current page is one of the pages there are (page 1 when there
    is none). *)
Definition pageInRange {host : Host} (s : State) : Prop :=
  1 <= currentPage s <= Z.max 1 (totalPages s).

(** [q] occurs in [t] as a run of consecutive characters. *)
Definition occurs (q t : string) : Prop :=
  exists pre post : string, t = (pre ++ q ++ post)%string.

(** The criteria taken together, for one entry. *)
Definition passes {host : Host} (s : State) (movie : FilmHistory) : bool :=
  (negb (JS.truthy (trim (searchQuery s)))
   || searchPred (toLowerCase (searchQuery s)) movie)
  && (negb (0 <? Z.of_nat (List.length (selectedGenres s)))
      || genrePred (selectedGenres s) movie)
  && ((ratingFilter s =? "all")%string || ratingPred (ratingFilter s) movie)
  && ((durationFilter s =? "all")%string
      || durationPred (durationFilter s) movie)
  && (negb (JS.truthy (from (dateRange s)) || JS.truthy (to (dateRange s)))
      || datePred (dateRange s) movie).

(** The number of movies of genre [g] in a list. *)
Definition genreViews (g : string) (movies : list Profile.Movie) : Z :=
  Z.of_nat
    (List.length (filter (fun m => (Profile.genre m =? g)%string) movies)).

(** ** Sample histories *)

Module Sample.

#[local] Existing Instance RefHost.ref_host.

Definition alpha : FilmHistory :=
  {| id := "1"; name := "Alpha"; genre := Some "action"; rating := Some "PG";
     duration := Some 85; description := None;
     dateAdded := Some "2024-03-15T10:20:30.123Z" |}.

Definition beta : FilmHistory :=
  {| id := "2"; name := "Beta"; genre := Some "drama"; rating := Some "R";
     duration := Some 130; description := Some "slow burn";
     dateAdded := Some "2023-11-02T08:00:00.000Z" |}.

Definition gamma : FilmHistory :=
  {| id := "3"; name := "Gamma"; genre := None; rating := None;
     duration := None; description := None; dateAdded := None |}.

Definition delta : FilmHistory :=
  {| id := "4"; name := "Delta"; genre := Some "drama"; rating := Some "G";
     duration := Some 95; description := None;
     dateAdded := Some "1969-12-31T23:59:59.999Z" |}.

Definition epsilon : FilmHistory :=
  {| id := "5"; name := "Epsilon"; genre := Some "action"; rating := Some "PG";
     duration := Some 85; description := None;
     dateAdded := Some "2024-03-01T09:00:00.000Z" |}.

(** The initial values of the [useState] cells. *)
Definition initial : State :=
  {| movies := []; filteredMovies := [];
     searchQuery := ""; selectedGenres := [];
     ratingFilter := "all"; durationFilter := "all"; yearFilter := "all";
     dateRange := {| from := ""; to := "" |};
     sortBy := by_name; groupBy := group_none;
     itemsPerPage := 10; currentPage := 1 |}.

(** The component once [history] has arrived and the effect has run. *)
Definition loaded (history : list FilmHistory) : State :=
  dispatch (HistoryLoaded history) initial.

End Sample.

(** The distinct labels of a list, each at the place of its first
    occurrence. *)
Fixpoint firstOccurrences (labels : list string) : list string :=
  match labels with
  | [] => []
  | k :: rest =>
      k :: filter (fun k' => negb (k' =? k)%string) (firstOccurrences rest)
  end.

(** The buckets of a page under a labelling: one per label, in the order
    of first occurrence, each holding its entries in page order. *)
Definition bucketsInOrder (label : FilmHistory -> string)
    (page : list FilmHistory) : list (string * list FilmHistory) :=
  map (fun k => (k, filter (fun movie => (label movie =? k)%string) page))
      (firstOccurrences (map label page)).



(** ** States reached from the sample histories *)

Module Scenario.

#[local] Existing Instance RefHost.ref_host.

Definition two : State := Sample.loaded [Sample.alpha; Sample.beta].

Definition four : State :=
  Sample.loaded [Sample.alpha; Sample.beta; Sample.gamma; Sample.delta].

(** Most recent first, grouped by year. *)
Definition byYear : State :=
  dispatch (GroupSelect group_year) (dispatch (SortSelect by_dateAdded) two).

(** Nothing is rated NC-17. *)
Definition noMatch : State := dispatch (RatingSelect "NC-17") four.


(** One entry per page, second page. *)
Definition secondPage : State :=
  dispatch NextClick (dispatch (PerPageSelect 1) two).

Definition fromJanuary : State := dispatch (DateFromInput "2024-01-01") four.

(** The lower bound later than the upper bound. *)
Definition inverted : State := dispatch (DateToInput "2023-01-01") fromJanuary.

(** Two entries of 85 minutes, sorted by duration. *)
Definition ties : State :=
  dispatch (SortSelect by_duration)
           (Sample.loaded [Sample.alpha; Sample.beta; Sample.epsilon]).

Definition is85 (movie : FilmHistory) : bool := durationOf movie =? 85.

(** A search that keeps one entry, then the reset. *)
Definition searched : State := dispatch (SearchInput "slow") four.

Definition watched : list Profile.Movie :=
  [ {| Profile.genre := "drama" |}; {| Profile.genre := "action" |};
    {| Profile.genre := "drama" |} ].

End Scenario.


(* ------------------------------------------------------------------ *)
(** * Facts about the host-language primitives *)

Module JSFacts.

(** [Math.ceil] and [Math.round] of an integer quotient, in integer
    arithmetic. *)
Lemma Math_ceil_quotient (a b : Z) :
  JS.Math_ceil (inject_Z a / inject_Z b) = - ((- a) / b).
Proof.
  unfold JS.Math_ceil, Qceiling. f_equal.
  rewrite Zdiv_Qdiv. apply Qfloor_comp.
  rewrite inject_Z_opp. unfold Qdiv.
  destruct (Z.eq_dec b 0) as [-> | Hb].
  - unfold Qeq, Qinv, inject_Z; simpl. ring.
  - field. intro H. apply Hb. unfold Qeq in H; simpl in H. lia.
Qed.

Lemma Math_round_quotient (a b : Z) :
  0 < b -> JS.Math_round (inject_Z a / inject_Z b) = (2 * a + b) / (2 * b).
Proof.
  intros Hb. unfold JS.Math_round.
  rewrite Zdiv_Qdiv. apply Qfloor_comp.
  rewrite !inject_Z_plus, !inject_Z_mult.
  assert (Hq : ~ inject_Z b == 0).
  { intro H. unfold Qeq in H; simpl in H. lia. }
  change (inject_Z 2) with 2%Q. field. exact Hq.
Qed.

Lemma ceil_quotient_bounds (a b : Z) :
  0 < b ->
  let t := JS.Math_ceil (inject_Z a / inject_Z b) in
  b * (t - 1) < a <= b * t.
Proof.
  intros Hb t. subst t. rewrite Math_ceil_quotient.
  pose proof (Z.div_mod (- a) b ltac:(lia)) as Hdm.
  pose proof (Z.mod_pos_bound (- a) b Hb) as Hm.
  nia.
Qed.

Lemma round_quotient_bounds (a b : Z) :
  0 < b ->
  let h := JS.Math_round (inject_Z a / inject_Z b) in
  2 * b * h - b <= 2 * a < 2 * b * h + b.
Proof.
  intros Hb h. subst h. rewrite Math_round_quotient by exact Hb.
  pose proof (Z.div_mod (2 * a + b) (2 * b) ltac:(lia)) as Hdm.
  pose proof (Z.mod_pos_bound (2 * a + b) (2 * b) ltac:(lia)) as Hm.
  nia.
Qed.

Lemma slice_nil {A : Type} (start fin : Z) : JS.slice (@nil A) start fin = [].
Proof.
  unfold JS.slice. rewrite skipn_nil, firstn_nil. reflexivity.
Qed.

(** ** The sort returns a permutation, ordered by the comparator

    The comparator need only be consistent on the entries that satisfy
    [P], as long as the whole array does. *)
Section SortFacts.
Context {A : Type} (comparefn : A -> A -> JS.number) (P : A -> Prop).

Local Abbreviation before := (JS.before comparefn).

Hypothesis before_total :
  forall a b, P a -> P b -> before a b \/ before b a.
Hypothesis before_trans :
  forall a b c, P a -> P b -> P c -> before a b -> before b c -> before a c.

Lemma sort_insert_perm (x : A) (l : list A) :
  Permutation (x :: l) (JS.sort_insert comparefn x l).
Proof.
  induction l as [| y l IH]; simpl.
  - reflexivity.
  - destruct (JS.cmp_sign (comparefn x y) <=? 0).
    + reflexivity.
    + rewrite perm_swap. constructor. exact IH.
Qed.

Lemma sort_perm (l : list A) : Permutation l (JS.sort comparefn l).
Proof.
  induction l as [| x l IH]; simpl.
  - constructor.
  - rewrite <- sort_insert_perm. constructor. exact IH.
Qed.

Lemma sort_insert_sorted (x : A) (l : list A) :
  P x -> Forall P l ->
  StronglySorted before l ->
  StronglySorted before (JS.sort_insert comparefn x l).
Proof.
  intros Px Pl Hs. induction Hs as [| y l Hs IH Hy]; simpl.
  - repeat constructor.
  - inversion Pl as [| ? ? Py Pl']; subst.
    destruct (JS.cmp_sign (comparefn x y) <=? 0) eqn:Hc.
    + apply Z.leb_le in Hc. fold (before x y) in Hc.
      constructor; [constructor; assumption |].
      constructor; [exact Hc |].
      rewrite Forall_forall in Hy, Pl' |- *.
      intros z Hz. apply (before_trans x y z); auto.
    + apply Z.leb_gt in Hc.
      constructor; [apply IH; exact Pl' |].
      apply (Permutation_Forall (sort_insert_perm x l)).
      constructor; [| exact Hy].
      destruct (before_total x y Px Py) as [H | H]; [| exact H].
      unfold JS.before in H. lia.
Qed.

Lemma sort_sorted (l : list A) :
  Forall P l -> StronglySorted before (JS.sort comparefn l).
Proof.
  induction l as [| x l IH]; simpl; intros Pl.
  - constructor.
  - inversion Pl as [| ? ? Px Pl']; subst.
    apply sort_insert_sorted; auto.
    apply (Permutation_Forall (sort_perm l)). exact Pl'.
Qed.
End SortFacts.

(** ** Subsequences *)

Lemma subsequence_refl {A : Type} (l : list A) : subsequence l l.
Proof. induction l; auto. Qed.

Lemma subsequence_trans {A : Type} (l1 l2 l3 : list A) :
  subsequence l1 l2 -> subsequence l2 l3 -> subsequence l1 l3.
Proof.
  intros H12 H23. revert l1 H12.
  induction H23 as [| x l2 l3 H IH | x l2 l3 H IH]; intros l1 H12.
  - exact H12.
  - auto.
  - inversion H12; subst; auto.
Qed.

Lemma subsequence_filter {A : Type} (f : A -> bool) (l : list A) :
  subsequence (filter f l) l.
Proof.
  induction l as [| x l IH]; simpl; [auto |].
  destruct (f x); auto.
Qed.

Lemma subsequence_In {A : Type} (l1 l2 : list A) (x : A) :
  subsequence l1 l2 -> In x l1 -> In x l2.
Proof.
  induction 1; simpl; intuition.
Qed.

(** ** Objects *)

Lemma obj_get_absent {V : Type} (o : JS.Obj V) (k : string) :
  ~ In k (map fst o) -> JS.obj_get o k = None.
Proof.
  induction o as [| [k' v] o IH]; simpl; intros Hn; [reflexivity |].
  destruct (String.eqb_spec k' k); [tauto |].
  apply IH. tauto.
Qed.

Lemma obj_set_absent {V : Type} (o : JS.Obj V) (k : string) (v : V) :
  ~ In k (map fst o) -> JS.obj_set o k v = o ++ [(k, v)].
Proof.
  induction o as [| [k' v'] o IH]; simpl; intros Hn; [reflexivity |].
  destruct (String.eqb_spec k' k); [tauto |].
  rewrite IH by tauto. reflexivity.
Qed.

Lemma obj_get_last {V : Type} (o : JS.Obj V) (k : string) (v : V) :
  ~ In k (map fst o) -> JS.obj_get (o ++ [(k, v)]) k = Some v.
Proof.
  induction o as [| [k' v'] o IH]; simpl; intros Hn.
  - rewrite String.eqb_refl. reflexivity.
  - destruct (String.eqb_spec k' k); [tauto |]. apply IH. tauto.
Qed.

Lemma obj_set_last {V : Type} (o : JS.Obj V) (k : string) (v w : V) :
  ~ In k (map fst o) -> JS.obj_set (o ++ [(k, v)]) k w = o ++ [(k, w)].
Proof.
  induction o as [| [k' v'] o IH]; simpl; intros Hn.
  - rewrite String.eqb_refl. reflexivity.
  - destruct (String.eqb_spec k' k); [tauto |]. rewrite IH by tauto.
    reflexivity.
Qed.

(** Writing to an existing property of an object without duplicate keys
    changes that property where it stands. *)
Lemma obj_set_present {V : Type} (o : JS.Obj V) (k : string) (f : V -> V) :
  NoDup (map fst o) ->
  In k (map fst o) ->
  exists v, JS.obj_get o k = Some v
    /\ JS.obj_set o k (f v)
       = map (fun e => if (fst e =? k)%string then (fst e, f (snd e)) else e) o.
Proof.
  induction o as [| [k' v'] o IH]; simpl; intros Hnd Hin; [tauto |].
  inversion Hnd as [| ? ? Hk' Hnd']; subst.
  destruct (String.eqb_spec k' k) as [-> | Hne].
  - exists v'. split; [reflexivity |]. f_equal.
    rewrite <- (map_id o) at 1. apply map_ext_in.
    intros [k2 v2] Hin2. simpl.
    destruct (String.eqb_spec k2 k) as [-> | ?]; [| reflexivity].
    exfalso. apply Hk'. apply (in_map fst) in Hin2. exact Hin2.
  - destruct Hin as [? | Hin]; [congruence |].
    destruct (IH Hnd' Hin) as (v & Hg & Hs).
    exists v. split; [exact Hg |]. rewrite Hs. reflexivity.
Qed.

(** [Object.entries] rearranges the properties and keeps them as they
    are when no key is an array index. *)
Lemma ascending_index_perm {V : Type} (l : list (string * V)) :
  Permutation l (JS.ascending_index l).
Proof. apply sort_perm. Qed.

Lemma ascending_index_sorted {V : Type} (l : list (string * V)) :
  StronglySorted (fun e e' => JS.index_of (fst e) <= JS.index_of (fst e'))
                 (JS.ascending_index l).
Proof.
  assert (H : StronglySorted (JS.before JS.compare_index)
                             (JS.ascending_index l)).
  { apply (sort_sorted _ (fun _ => True)).
    - intros a b _ _. unfold JS.before, JS.compare_index. simpl. lia.
    - intros a b c _ _ _. unfold JS.before, JS.compare_index. simpl. lia.
    - apply Forall_forall. intros; exact I. }
  revert H. generalize (JS.ascending_index l). intros l' H.
  induction H as [| e l'' H IH He]; constructor; [exact IH |].
  rewrite Forall_forall in He |- *. intros e' Hin.
  specialize (He e' Hin). unfold JS.before, JS.compare_index in He.
  simpl in He. lia.
Qed.

Lemma partition_perm {A : Type} (f : A -> bool) (l : list A) :
  Permutation l (filter f l ++ filter (fun x => negb (f x)) l).
Proof.
  induction l as [| x l IH]; simpl; [constructor |].
  destruct (f x); simpl.
  - constructor. exact IH.
  - apply Permutation_cons_app. exact IH.
Qed.

Lemma Object_entries_perm {V : Type} (o : JS.Obj V) :
  Permutation o (JS.Object_entries o).
Proof.
  unfold JS.Object_entries.
  rewrite <- ascending_index_perm.
  apply (partition_perm (fun e => JS.is_index (fst e))).
Qed.

Lemma Object_entries_no_index {V : Type} (o : JS.Obj V) :
  Forall (fun e => JS.is_index (fst e) = false) o ->
  JS.Object_entries o = o.
Proof.
  intros H. unfold JS.Object_entries.
  replace (filter (fun e => JS.is_index (fst e)) o) with (@nil (string * V)).
  - simpl. induction H as [| e o He H IH]; simpl; [reflexivity |].
    rewrite He. simpl. f_equal. exact IH.
  - induction H as [| e o He H IH]; simpl; [reflexivity |].
    rewrite He. exact IH.
Qed.

(** ** First occurrences *)

Lemma firstOccurrences_In (ks : list string) (k : string) :
  In k (firstOccurrences ks) <-> In k ks.
Proof.
  induction ks as [| a ks IH]; simpl; [tauto |].
  rewrite filter_In, IH, negb_true_iff, String.eqb_neq.
  destruct (string_dec a k); [tauto |].
  split; [tauto |]. intros [? | ?]; [tauto |]. right. split; congruence.
Qed.

Lemma firstOccurrences_NoDup (ks : list string) : NoDup (firstOccurrences ks).
Proof.
  induction ks as [| a ks IH]; simpl; constructor.
  - rewrite filter_In, negb_true_iff, String.eqb_neq. tauto.
  - apply NoDup_filter. exact IH.
Qed.

Lemma firstOccurrences_snoc (ks : list string) (k : string) :
  firstOccurrences (ks ++ [k])
  = if JS.array_includes ks k then firstOccurrences ks
    else firstOccurrences ks ++ [k].
Proof.
  unfold JS.array_includes.
  induction ks as [| a ks IH]; simpl; [reflexivity |].
  rewrite IH. rewrite (String.eqb_sym k a).
  destruct (String.eqb_spec a k) as [-> | Hne]; simpl.
  - destruct (existsb (String.eqb k) ks); [reflexivity |].
    rewrite filter_app. simpl. rewrite String.eqb_refl. simpl.
    rewrite app_nil_r. reflexivity.
  - destruct (existsb (String.eqb k) ks); [reflexivity |].
    rewrite filter_app. simpl.
    destruct (String.eqb_spec k a); [congruence |]. reflexivity.
Qed.

Lemma array_includes_In (ks : list string) (k : string) :
  JS.array_includes ks k = true <-> In k ks.
Proof.
  unfold JS.array_includes. rewrite existsb_exists. split.
  - intros (x & Hin & He). apply String.eqb_eq in He. congruence.
  - intros Hin. exists k. split; [exact Hin | apply String.eqb_refl].
Qed.

End JSFacts.

(* ------------------------------------------------------------------ *)
(** * Facts about the component *)

Section HistoryFacts.
Context {host : Host}.

Lemma or_zero_durationOf (movie : FilmHistory) :
  JS.or_zero (duration movie) = durationOf movie.
Proof.
  unfold JS.or_zero, durationOf.
  destruct (duration movie) as [z |]; [| reflexivity].
  destruct (Z.eqb_spec z 0); congruence.
Qed.


Lemma truthy_true (v : string) : JS.truthy v = true <-> v <> "".
Proof.
  unfold JS.truthy. destruct (String.eqb_spec v ""); simpl; split; congruence.
Qed.

Lemma truthy_false (v : string) : JS.truthy v = false <-> v = "".
Proof.
  unfold JS.truthy. destruct (String.eqb_spec v ""); simpl; split; congruence.
Qed.

Lemma movieDate_undated (movie : FilmHistory) :
  movieDate movie = None <-> undated movie.
Proof.
  unfold movieDate, undated.
  destruct (dateAdded movie) as [d |].
  - destruct (JS.truthy d) eqn:Hd.
    + apply truthy_true in Hd. split; [discriminate |].
      intros [H | H]; congruence.
    + apply truthy_false in Hd. subst. tauto.
  - tauto.
Qed.

Lemma movieDate_dated (movie : FilmHistory) (d : string) :
  dateAdded movie = Some d -> d <> "" -> movieDate movie = Some (Date_parse d).
Proof.
  intros Hd Hne. unfold movieDate. rewrite Hd.
  apply truthy_true in Hne. rewrite Hne. reflexivity.
Qed.

Lemma totalMinutes_sum (s : State) : totalMinutes s = sumDurations (movies s).
Proof.
  unfold totalMinutes, sumDurations.
  assert (G : forall l acc,
             fold_left (fun sum movie => sum + JS.or_zero (duration movie)) l acc
             = acc + fold_right Z.add 0 (map durationOf l)).
  { induction l as [| m l IH]; intros acc; simpl.
    - lia.
    - rewrite IH, or_zero_durationOf. lia. }
  rewrite G. lia.
Qed.

Lemma totalPages_bounds (s : State) :
  0 < itemsPerPage s ->
  itemsPerPage s * (totalPages s - 1) < filteredCount s
                                      <= itemsPerPage s * totalPages s.
Proof.
  intros Hp.
  pose proof (JSFacts.ceil_quotient_bounds
                (Z.of_nat (List.length (filteredMovies s))) _ Hp) as H.
  exact H.
Qed.

Lemma filteredCount_nonneg (s : State) : 0 <= filteredCount s.
Proof. unfold filteredCount. lia. Qed.

(** C3: for a positive page size, [totalPages] is the ceiling of
    [filteredCount / itemsPerPage], that is the least number of pages of
    that size that hold every filtered entry, and it is [0] exactly when
    nothing passes the filters. *)
Theorem totalPages_is_ceiling (s : State) :
  0 < itemsPerPage s ->
  itemsPerPage s * (totalPages s - 1) < filteredCount s
                                      <= itemsPerPage s * totalPages s
  /\ (totalPages s = 0 <-> filteredCount s = 0).
Proof.
  intros Hp.
  pose proof (JSFacts.ceil_quotient_bounds
                (Z.of_nat (List.length (filteredMovies s))) _ Hp) as H.
  cbv zeta in H. fold (totalPages s) in H. fold (filteredCount s) in H.
  assert (0 <= filteredCount s) by (unfold filteredCount; lia).
  split; [exact H |]. split; intros E; nia.
Qed.

(** C8: the statistics count the whole base collection and the whole
    filtered subset, and the hours are the minutes of the whole base
    collection divided by 60 and rounded to the nearest integer (halves
    up), whatever the filters, the page and the other cells hold. *)
Theorem statistics_over_base (s : State) :
  totalMovies s = Z.of_nat (List.length (movies s))
  /\ filteredCount s = Z.of_nat (List.length (filteredMovies s))
  /\ 60 * totalHours s - 30 <= sumDurations (movies s) < 60 * totalHours s + 30
  /\ (forall fm q gs r d y dr so gb ipp cp,
        let s' := {| movies := movies s; filteredMovies := fm;
                     searchQuery := q; selectedGenres := gs;
                     ratingFilter := r; durationFilter := d;
                     yearFilter := y; dateRange := dr;
                     sortBy := so; groupBy := gb;
                     itemsPerPage := ipp; currentPage := cp |} in
        totalMovies s' = totalMovies s /\ totalHours s' = totalHours s)
  /\ totalMovies (applyFilters s) = totalMovies s
  /\ totalHours (applyFilters s) = totalHours s.
Proof.
  repeat split.
  pose proof (JSFacts.round_quotient_bounds (totalMinutes s) 60 ltac:(lia)) as H.
  cbv zeta in H. fold (totalHours s) in H.
  rewrite <- totalMinutes_sum. lia.
  pose proof (JSFacts.round_quotient_bounds (totalMinutes s) 60 ltac:(lia)) as H.
  cbv zeta in H. fold (totalHours s) in H.
  rewrite <- totalMinutes_sum. lia.
Qed.

Lemma durationPred_short (movie : FilmHistory) :
  durationPred "short" movie = true <-> durationOf movie < 90.
Proof.
  unfold durationPred; simpl. rewrite or_zero_durationOf. apply Z.ltb_lt.
Qed.

Lemma durationPred_medium (movie : FilmHistory) :
  durationPred "medium" movie = true <-> 90 <= durationOf movie <= 120.
Proof.
  unfold durationPred; simpl. rewrite or_zero_durationOf.
  rewrite andb_true_iff, !Z.leb_le. tauto.
Qed.

Lemma durationPred_long (movie : FilmHistory) :
  durationPred "long" movie = true <-> 120 < durationOf movie.
Proof.
  unfold durationPred; simpl. rewrite or_zero_durationOf. apply Z.ltb_lt.
Qed.

(** C5: the duration filter classifies an entry by its duration, [0]
    when it has none: "short" keeps the entries under 90 minutes,
    "medium" those from 90 to 120 minutes, both included, "long" those
    over 120 minutes, and "all" keeps every entry. *)
Theorem duration_buckets (s : State) (result : list FilmHistory)
    (movie : FilmHistory) :
  JS.or_zero (duration movie) = durationOf movie
  /\ (In movie (durationStage (setDurationFilter "short" s) result)
      <-> In movie result /\ durationOf movie < 90)
  /\ (In movie (durationStage (setDurationFilter "medium" s) result)
      <-> In movie result /\ 90 <= durationOf movie <= 120)
  /\ (In movie (durationStage (setDurationFilter "long" s) result)
      <-> In movie result /\ 120 < durationOf movie)
  /\ durationStage (setDurationFilter "all" s) result = result.
Proof.
  split; [apply or_zero_durationOf |].
  unfold durationStage; simpl.
  rewrite !filter_In.
  rewrite durationPred_short, durationPred_medium, durationPred_long.
  tauto.
Qed.

Lemma date_gt_Int (a b : Z) : JS.date_gt (JS.Int a) (JS.Int b) = true <-> b < a.
Proof. simpl. apply Z.ltb_lt. Qed.

(** The date-range callback on an entry whose date is the time value
    [t]. *)
Lemma datePred_dated (range : DateRange) (movie : FilmHistory) (t : Z) :
  movieDate movie = Some (JS.Int t) ->
  datePred range movie = true <->
    (forall f, from range <> "" -> Date_parse (from range) = JS.Int f -> f <= t)
    /\ (forall u, to range <> "" -> Date_parse (to range) = JS.Int u -> t <= u).
Proof.
  intros Hd. unfold datePred. rewrite Hd. unfold JS.date_lt.
  destruct (JS.truthy (from range)) eqn:Hf; simpl.
  - apply truthy_true in Hf.
    destruct (Date_parse (from range)) as [| f] eqn:Pf; simpl.
    + destruct (JS.truthy (to range)) eqn:Ht; simpl.
      * apply truthy_true in Ht.
        destruct (Date_parse (to range)) as [| u] eqn:Pu; simpl.
        -- split; [intros _; split; intros; discriminate | reflexivity].
        -- destruct (Z.ltb_spec u t).
           ++ split; [discriminate |]. intros [_ H2].
              specialize (H2 u Ht eq_refl). lia.
           ++ split; [| reflexivity]. intros _. split; [intros; discriminate |].
              intros u' _ [= <-]. assumption.
      * apply truthy_false in Ht.
        split; [| reflexivity]. intros _. split; [intros; discriminate |].
        intros u' Hne. congruence.
    + destruct (Z.ltb_spec t f).
      * split; [discriminate |]. intros [H1 _].
        specialize (H1 f Hf eq_refl). lia.
      * destruct (JS.truthy (to range)) eqn:Ht; simpl.
        -- apply truthy_true in Ht.
           destruct (Date_parse (to range)) as [| u] eqn:Pu; simpl.
           ++ split; [| reflexivity]. intros _.
              split; [intros f' _ [= <-]; assumption | intros; discriminate].
           ++ destruct (Z.ltb_spec u t).
              ** split; [discriminate |]. intros [_ H2].
                 specialize (H2 u Ht eq_refl). lia.
              ** split; [| reflexivity]. intros _.
                 split; [intros f' _ [= <-] | intros u' _ [= <-]]; assumption.
        -- apply truthy_false in Ht.
           split; [| reflexivity]. intros _.
           split; [intros f' _ [= <-]; assumption |].
           intros u' Hne. congruence.
  - apply truthy_false in Hf.
    destruct (JS.truthy (to range)) eqn:Ht; simpl.
    + apply truthy_true in Ht.
      destruct (Date_parse (to range)) as [| u] eqn:Pu; simpl.
      * split; [| reflexivity]. intros _.
        split; [intros f' Hne; congruence | intros; discriminate].
      * destruct (Z.ltb_spec u t).
        -- split; [discriminate |]. intros [_ H2].
           specialize (H2 u Ht eq_refl). lia.
        -- split; [| reflexivity]. intros _.
           split; [intros f' Hne; congruence | intros u' _ [= <-]; assumption].
    + apply truthy_false in Ht.
      split; [| reflexivity]. intros _.
      split; intros ? Hne; congruence.
Qed.

Lemma dateStage_active (s : State) (result : list FilmHistory) :
  from (dateRange s) <> "" \/ to (dateRange s) <> "" ->
  dateStage s result = filter (datePred (dateRange s)) result.
Proof.
  intros H. unfold dateStage.
  replace (JS.truthy (from (dateRange s)) || JS.truthy (to (dateRange s)))
    with true; [reflexivity |].
  symmetry. apply orb_true_iff. rewrite !truthy_true. exact H.
Qed.

(** C4: once a bound of the date range is set, an entry without a date
    passes the date filter whatever the bounds are, and an entry whose
    date is the time value [t] passes exactly when [t] is not before the
    lower bound and not after the upper bound, each bound checked only
    when it is set, equality allowed at both ends. *)
Theorem date_range_filter (s : State) (result : list FilmHistory)
    (movie : FilmHistory) :
  from (dateRange s) <> "" \/ to (dateRange s) <> "" ->
  In movie result ->
  (undated movie -> In movie (dateStage s result))
  /\ (forall d t,
        dateAdded movie = Some d -> d <> "" -> Date_parse d = JS.Int t ->
        In movie (dateStage s result) <->
          (forall f, from (dateRange s) <> "" ->
                     Date_parse (from (dateRange s)) = JS.Int f -> f <= t)
          /\ (forall u, to (dateRange s) <> "" ->
                        Date_parse (to (dateRange s)) = JS.Int u -> t <= u)).
Proof.
  intros Hset Hin. rewrite (dateStage_active s result Hset). split.
  - intros Hu. apply filter_In. split; [exact Hin |].
    unfold datePred. apply movieDate_undated in Hu. rewrite Hu. reflexivity.
  - intros d t Hd Hne Hp. rewrite filter_In.
    rewrite (datePred_dated (dateRange s) movie t).
    + tauto.
    + rewrite (movieDate_dated movie d Hd Hne), Hp. reflexivity.
Qed.

(** Every step of the filter stage keeps a subsequence of what it is
    given. *)
Lemma stages_subsequence (s : State) (result : list FilmHistory) :
  subsequence (searchStage s result) result
  /\ subsequence (genreStage s result) result
  /\ subsequence (ratingStage s result) result
  /\ subsequence (durationStage s result) result
  /\ subsequence (yearStage s result) result
  /\ subsequence (dateStage s result) result.
Proof.
  unfold searchStage, genreStage, ratingStage, durationStage, yearStage,
    dateStage.
  repeat split;
    match goal with
    | |- subsequence (if ?c then _ else _) _ => destruct c
    end;
    first [apply JSFacts.subsequence_filter | apply JSFacts.subsequence_refl].
Qed.

Lemma filterStage_subsequence (s : State) :
  subsequence (filterStage s) (movies s).
Proof.
  unfold filterStage; cbv zeta.
  eapply JSFacts.subsequence_trans; [apply stages_subsequence |].
  eapply JSFacts.subsequence_trans; [apply stages_subsequence |].
  eapply JSFacts.subsequence_trans; [apply stages_subsequence |].
  eapply JSFacts.subsequence_trans; [apply stages_subsequence |].
  eapply JSFacts.subsequence_trans; [apply stages_subsequence |].
  apply stages_subsequence.
Qed.

(** C9: whatever the criteria, the entries that reach the sort are
    entries of the base collection in their base order, and the filtered
    subset that [applyFilters] stores is a rearrangement of them, so each
    of its entries belongs to the base collection. *)
Theorem filtered_subset_of_base (s : State) :
  subsequence (filterStage s) (movies s)
  /\ Permutation (filterStage s) (filteredMovies (applyFilters s))
  /\ (forall movie,
        In movie (filteredMovies (applyFilters s)) -> In movie (movies s)).
Proof.
  assert (Hsub : subsequence (filterStage s) (movies s)).
  { unfold filterStage; cbv zeta.
    eapply JSFacts.subsequence_trans; [apply stages_subsequence |].
    eapply JSFacts.subsequence_trans; [apply stages_subsequence |].
    eapply JSFacts.subsequence_trans; [apply stages_subsequence |].
    eapply JSFacts.subsequence_trans; [apply stages_subsequence |].
    eapply JSFacts.subsequence_trans; [apply stages_subsequence |].
    apply stages_subsequence. }
  assert (Hperm : Permutation (filterStage s) (filteredMovies (applyFilters s))).
  { simpl. apply JSFacts.sort_perm. }
  repeat split; [exact Hsub | exact Hperm |].
  intros movie Hin.
  apply (JSFacts.subsequence_In _ _ _ Hsub).
  apply (Permutation_in _ (Permutation_sym Hperm)). exact Hin.
Qed.

Lemma yearStage_id (s : State) (result : list FilmHistory) :
  yearStage s result = result.
Proof. unfold yearStage. destruct (negb _); reflexivity. Qed.

Lemma filterStage_yearFilter (s : State) (y : string) :
  filterStage (setYearFilter y s) = filterStage s.
Proof.
  unfold filterStage; cbv zeta. rewrite !yearStage_id. reflexivity.
Qed.

(** C10: the value of [yearFilter] has no effect on what the pipeline
    produces: two states that differ in that cell only give the same
    filtered subset, the same page slice, the same groups and the same
    statistics, both when [applyFilters] runs and at render time. *)
Theorem yearFilter_is_ignored (s : State) (y : string) :
  let r := applyFilters s in
  let r' := applyFilters (setYearFilter y s) in
  (filterStage (setYearFilter y s) = filterStage s
   /\ filteredMovies r' = filteredMovies r
   /\ currentPage r' = currentPage r
   /\ currentMovies r' = currentMovies r
   /\ groupedMovies r' = groupedMovies r
   /\ totalPages r' = totalPages r
   /\ (totalMovies r', totalHours r', filteredCount r')
      = (totalMovies r, totalHours r, filteredCount r))
  /\ (currentMovies (setYearFilter y s) = currentMovies s
      /\ groupedMovies (setYearFilter y s) = groupedMovies s
      /\ totalPages (setYearFilter y s) = totalPages s
      /\ (totalMovies (setYearFilter y s), totalHours (setYearFilter y s),
          filteredCount (setYearFilter y s))
         = (totalMovies s, totalHours s, filteredCount s)).
Proof.
  intros r r'.
  assert (E : r' = setYearFilter y r).
  { subst r r'. unfold applyFilters.
    rewrite filterStage_yearFilter. reflexivity. }
  rewrite E. split; [split; [apply filterStage_yearFilter |] |];
    repeat split; reflexivity.
Qed.

(** C2 (amended): when nothing passes the filters and the page size is
    positive, there are no pages, the page slice is empty and the
    statistics show a filtered count of 0.  Grouped by month or by year the
    page has no bucket at all; without grouping it has the single bucket
    "All Movies", which is empty. *)
Theorem empty_filtered_state (s : State) :
  filteredMovies s = [] ->
  0 < itemsPerPage s ->
  totalPages s = 0
  /\ filteredCount s = 0
  /\ currentMovies s = []
  /\ JS.Object_entries (groupedMovies s)
     = match groupBy s with
       | group_none => [("All Movies", [])]
       | group_month | group_year => []
       end.
Proof.
  intros He Hp.
  assert (Hc : filteredCount s = 0) by (unfold filteredCount; rewrite He; reflexivity).
  assert (Hm : currentMovies s = []).
  { unfold currentMovies. rewrite He. apply JSFacts.slice_nil. }
  repeat split.
  - pose proof (totalPages_bounds s Hp). nia.
  - exact Hc.
  - exact Hm.
  - unfold groupedMovies. rewrite Hm. destruct (groupBy s); reflexivity.
Qed.

Lemma applyFilters_first_page (s : State) :
  currentPage (applyFilters s) = 1
  /\ currentMovies (applyFilters s)
     = JS.slice (filteredMovies (applyFilters s)) 0
                (itemsPerPage (applyFilters s)).
Proof.
  split; [reflexivity |].
  unfold currentMovies, endIndex, startIndex. simpl. reflexivity.
Qed.

Lemma primitiveDepsChanged_false (s s' : State) :
  primitiveDepsChanged s s' = false ->
  searchQuery s = searchQuery s' /\ ratingFilter s = ratingFilter s'
  /\ durationFilter s = durationFilter s' /\ yearFilter s = yearFilter s'
  /\ sortBy s = sortBy s'.
Proof.
  unfold primitiveDepsChanged. intros H. apply negb_false_iff in H.
  rewrite !andb_true_iff, !String.eqb_eq in H.
  destruct H as [[[[H1 H2] H3] H4] H5].
  repeat split; try assumption.
  destruct (sortBy s), (sortBy s'); simpl in H5; congruence.
Qed.

(** C7: an event that changes a filter criterion, the sort key or the
    page size leaves the component on page 1, and the page slice of the
    next render is the first [itemsPerPage] entries of the filtered
    subset. *)
Theorem change_resets_page (e : Event) (s : State) :
  queryInputs (fst (handle e s)) <> queryInputs s ->
  currentPage (dispatch e s) = 1
  /\ currentMovies (dispatch e s)
     = JS.slice (filteredMovies (dispatch e s)) 0
                (itemsPerPage (dispatch e s)).
Proof.
  intros Hchange. unfold dispatch.
  destruct (handle e s) as [s' fresh] eqn:Hh. simpl in Hchange.
  destruct (fresh || primitiveDepsChanged s s') eqn:Hrun.
  - apply applyFilters_first_page.
  - apply orb_false_iff in Hrun. destruct Hrun as [Hfresh Hdeps].
    apply primitiveDepsChanged_false in Hdeps.
    destruct Hdeps as (H1 & H2 & H3 & H4 & H5). subst fresh.
    destruct e; simpl in Hh; inversion Hh; subst s'; clear Hh;
      simpl in *;
      try (exfalso; apply Hchange; unfold queryInputs; simpl; congruence).
    + split; [reflexivity |].
      unfold currentMovies, endIndex, startIndex. simpl. reflexivity.
    + exfalso; apply Hchange.
      destruct (_ && _); reflexivity.
    + exfalso; apply Hchange.
      destruct (_ && _); reflexivity.
Qed.

(** ** Grouping *)

Lemma pushTo_new (groups : JS.Obj (list FilmHistory)) (key : string)
    (movie : FilmHistory) :
  ~ In key (map fst groups) ->
  pushTo groups key movie = groups ++ [(key, [movie])].
Proof.
  intros Hn. unfold pushTo.
  rewrite (JSFacts.obj_get_absent groups key Hn). simpl.
  rewrite (JSFacts.obj_set_absent groups key [] Hn).
  rewrite (JSFacts.obj_get_last groups key [] Hn). simpl.
  apply JSFacts.obj_set_last. exact Hn.
Qed.

Lemma obj_set_same (groups : JS.Obj (list FilmHistory)) (key : string)
    (v : list FilmHistory) :
  JS.obj_get groups key = Some v -> JS.obj_set groups key v = groups.
Proof.
  induction groups as [| [k' v'] groups IH]; simpl; [discriminate |].
  destruct (String.eqb_spec k' key).
  - intros [= ->]. reflexivity.
  - intros H. rewrite (IH H). reflexivity.
Qed.

Lemma pushTo_old (groups : JS.Obj (list FilmHistory)) (key : string)
    (movie : FilmHistory) :
  NoDup (map fst groups) ->
  In key (map fst groups) ->
  pushTo groups key movie
  = map (fun e => if (fst e =? key)%string then (fst e, snd e ++ [movie])
                  else e) groups.
Proof.
  intros Hnd Hin. unfold pushTo.
  destruct (JSFacts.obj_set_present groups key (fun v => v ++ [movie]) Hnd Hin)
    as (v & Hg & Hs).
  rewrite Hg. simpl. rewrite (obj_set_same groups key v Hg).
  rewrite Hg. simpl. exact Hs.
Qed.

Lemma bucketsInOrder_keys (label : FilmHistory -> string)
    (page : list FilmHistory) :
  map fst (bucketsInOrder label page) = firstOccurrences (map label page).
Proof.
  unfold bucketsInOrder. rewrite map_map. simpl. apply map_id.
Qed.

Lemma bucketsInOrder_snoc (label : FilmHistory -> string)
    (page : list FilmHistory) (movie : FilmHistory) :
  pushTo (bucketsInOrder label page) (label movie) movie
  = bucketsInOrder label (page ++ [movie]).
Proof.
  destruct (JS.array_includes (map label page) (label movie)) eqn:Hinc.
  - assert (Hin : In (label movie) (map label page))
      by (apply JSFacts.array_includes_In; exact Hinc).
    rewrite pushTo_old.
    + unfold bucketsInOrder at 2.
      rewrite map_app. simpl. rewrite JSFacts.firstOccurrences_snoc, Hinc.
      unfold bucketsInOrder. rewrite map_map.
      apply map_ext. intros k. simpl.
      rewrite filter_app. simpl. rewrite (String.eqb_sym k (label movie)).
      destruct (label movie =? k)%string; [reflexivity |].
      rewrite app_nil_r. reflexivity.
    + rewrite bucketsInOrder_keys. apply JSFacts.firstOccurrences_NoDup.
    + rewrite bucketsInOrder_keys. apply JSFacts.firstOccurrences_In.
      exact Hin.
  - assert (Hnin : ~ In (label movie) (map label page)).
    { intros Hin. apply JSFacts.array_includes_In in Hin. congruence. }
    rewrite pushTo_new.
    + unfold bucketsInOrder at 2.
      rewrite map_app. simpl. rewrite JSFacts.firstOccurrences_snoc, Hinc.
      rewrite map_app. simpl. f_equal.
      * unfold bucketsInOrder. apply map_ext_in. intros k Hk.
        rewrite JSFacts.firstOccurrences_In in Hk.
        rewrite filter_app. simpl.
        destruct (String.eqb_spec (label movie) k) as [E | _];
          [congruence | rewrite app_nil_r; reflexivity].
      * rewrite filter_app. simpl. rewrite String.eqb_refl.
        replace (filter (fun m => (label m =? label movie)%string) page)
          with (@nil FilmHistory); [reflexivity |].
        symmetry. clear Hinc. induction page as [| m page IH]; [reflexivity |].
        simpl in *. destruct (String.eqb_spec (label m) (label movie)).
        -- tauto.
        -- apply IH. tauto.
    + rewrite bucketsInOrder_keys, JSFacts.firstOccurrences_In. exact Hnin.
Qed.

Lemma forEach_bucketsInOrder (label : FilmHistory -> string)
    (seen page : list FilmHistory) :
  fold_left (fun groups movie => pushTo groups (label movie) movie) page
            (bucketsInOrder label seen)
  = bucketsInOrder label (seen ++ page).
Proof.
  revert seen. induction page as [| m page IH]; intros seen; simpl.
  - rewrite app_nil_r. reflexivity.
  - rewrite bucketsInOrder_snoc, IH, <- app_assoc. reflexivity.
Qed.

(** The object that the [forEach] builds has one property per label, in
    the order in which the labels are first met on the page, and each
    holds its entries in page order. *)
Lemma groups_created_in_encounter_order (s : State) :
  groupBy s <> group_none ->
  groupedMovies s = bucketsInOrder (groupLabel (groupBy s)) (currentMovies s).
Proof.
  intros Hg. unfold groupedMovies.
  destruct (groupBy s) eqn:E; [congruence | |];
    apply (forEach_bucketsInOrder _ []).
Qed.

(** Whatever the group key, [Object.entries] lists exactly these
    buckets, each with its entries in page order. *)
Lemma grouped_buckets_keep_page_order (s : State) :
  groupBy s <> group_none ->
  Permutation (bucketsInOrder (groupLabel (groupBy s)) (currentMovies s))
              (JS.Object_entries (groupedMovies s)).
Proof.
  intros Hg. rewrite <- (groups_created_in_encounter_order s Hg).
  apply JSFacts.Object_entries_perm.
Qed.

(** Grouped by year, the buckets whose label is an array index (every
    year from 0 on) are listed first, by ascending year, whatever the
    order in which the page meets them; the other buckets ("Unknown",
    "NaN", a negative year) follow as they were created. *)
Lemma year_groups_listed_by_index (s : State) :
  groupBy s = group_year ->
  let created := bucketsInOrder (groupLabel group_year) (currentMovies s) in
  exists indexed,
    JS.Object_entries (groupedMovies s)
    = indexed ++ filter (fun e => negb (JS.is_index (fst e))) created
    /\ Permutation (filter (fun e => JS.is_index (fst e)) created) indexed
    /\ StronglySorted
         (fun e e' => JS.index_of (fst e) <= JS.index_of (fst e')) indexed.
Proof.
  intros Hg created.
  rewrite groups_created_in_encounter_order by congruence. rewrite Hg.
  fold created. unfold JS.Object_entries.
  exists (JS.ascending_index (filter (fun e => JS.is_index (fst e)) created)).
  split; [reflexivity |]. split.
  - apply JSFacts.ascending_index_perm.
  - apply JSFacts.ascending_index_sorted.
Qed.

(** Grouped by month, the buckets are listed in the order in which their
    labels are first met on the page, as long as the host's month labels
    are not array indices ("March 2024" is not). *)
Lemma month_groups_in_encounter_order (s : State) :
  (forall t, JS.is_index (toLocaleDateString_month_year t) = false) ->
  groupBy s = group_month ->
  JS.Object_entries (groupedMovies s)
  = bucketsInOrder (groupLabel group_month) (currentMovies s).
Proof.
  intros Hlab Hg.
  rewrite groups_created_in_encounter_order by congruence. rewrite Hg.
  apply JSFacts.Object_entries_no_index.
  unfold bucketsInOrder. rewrite Forall_map. simpl.
  apply Forall_forall. intros k Hk.
  rewrite JSFacts.firstOccurrences_In in Hk. apply in_map_iff in Hk.
  destruct Hk as (m & <- & _).
  unfold groupLabel. destruct (movieDate m) as [[| t] |]; simpl.
  - reflexivity.
  - apply Hlab.
  - reflexivity.
Qed.

(** ** Sorting *)

Lemma StronglySorted_weaken {A : Type} (P : A -> Prop) (R R' : A -> A -> Prop)
    (l : list A) :
  (forall a b, P a -> P b -> R a b -> R' a b) ->
  Forall P l -> StronglySorted R l -> StronglySorted R' l.
Proof.
  intros Himp HP HS. induction HS as [| x l HS IH Hx]; [constructor |].
  inversion HP as [| ? ? Px Pl]; subst.
  constructor; [apply IH; exact Pl |].
  rewrite Forall_forall in Hx, Pl |- *. intros y Hy. apply Himp; auto.
Qed.






End HistoryFacts.

(* ------------------------------------------------------------------ *)
(** * The reference host *)

Module RefHostFacts.

Lemma compare_units_total (a b : string) :
  RefHost.compare_units a b <= 0 \/ RefHost.compare_units b a <= 0.
Proof.
  unfold RefHost.compare_units. rewrite (String.compare_antisym a b).
  destruct (String.compare b a); simpl; lia.
Qed.

Lemma compare_units_le (a b : string) :
  RefHost.compare_units a b <= 0 <-> a = b \/ String_as_OT.lt a b.
Proof.
  unfold RefHost.compare_units.
  rewrite <- String_as_OT.cmp_lt, <- String_as_OT.cmp_eq.
  unfold String_as_OT.cmp.
  destruct (String.compare a b); split; try lia; try tauto;
    intros [H | H]; discriminate.
Qed.

Lemma compare_units_trans (a b c : string) :
  RefHost.compare_units a b <= 0 -> RefHost.compare_units b c <= 0 ->
  RefHost.compare_units a c <= 0.
Proof.
  rewrite !compare_units_le.
  intros [-> | Hab] [-> | Hbc]; auto.
  right. eapply String_as_OT.lt_trans; eassumption.
Qed.

Lemma is_index_first_char (c : ascii) (rest : string) :
  uint_of_char c (Some Decimal.Nil) = None ->
  JS.is_index (String c rest) = false.
Proof.
  intros Hc. unfold JS.is_index, JS.array_index, NilZero.uint_of_string.
  cbn [NilEmpty.uint_of_string].
  destruct (NilEmpty.uint_of_string rest) as [d |]; [| reflexivity].
  replace (uint_of_char c (Some d)) with (@None Decimal.uint); [reflexivity |].
  destruct c as [[|] [|] [|] [|] [|] [|] [|] [|]];
    simpl in Hc |- *; first [reflexivity | discriminate Hc].
Qed.

Lemma month_year_not_index (t : Z) :
  JS.is_index (RefHost.month_year t) = false.
Proof.
  unfold RefHost.month_year, RefHost.month_name.
  repeat match goal with
         | |- context [if ?c then _ else _] => destruct c
         end;
    cbn [append]; apply is_index_first_char; reflexivity.
Qed.

End RefHostFacts.

(* ------------------------------------------------------------------ *)
(** * The component on the sample histories *)

Module ScenarioFacts.

#[local] Existing Instance RefHost.ref_host.

Import Sample Scenario.

(** Scenarios A to D of the specification. *)
Example scenario_A :
  filteredCount two = 2 /\ currentMovies two = [alpha; beta].
Proof. split; reflexivity. Qed.

Example scenario_B :
  filteredMovies (dispatch (DurationSelect "short") two) = [alpha].
Proof. reflexivity. Qed.

Example scenario_C :
  filteredMovies (dispatch (SortSelect by_duration) two) = [beta; alpha].
Proof. reflexivity. Qed.

Example scenario_D :
  currentPage secondPage = 2 /\ currentMovies secondPage = [beta].
Proof. split; reflexivity. Qed.

(** Grouped by month, the sample page lists its buckets as they are
    met. *)
Example month_groups_sample :
  let s := dispatch (GroupSelect group_month)
                    (dispatch (SortSelect by_dateAdded) four) in
  JS.Object_entries (groupedMovies s)
  = [("March 2024", [alpha]); ("November 2023", [beta]);
     ("Unknown", [gamma]); ("December 1969", [delta])].
Proof.
  intros s.
  rewrite (@month_groups_in_encounter_order RefHost.ref_host s
             RefHostFacts.month_year_not_index eq_refl).
  reflexivity.
Qed.

(** C1: on a page that holds a 2024 entry before a 2023 entry, grouped by
    year, the labels are first met in the order 2024, 2023, the object is
    created in that order, and [Object.entries] lists the bucket of 2023
    first. *)
Theorem year_groups_listed_ascending :
  currentMovies byYear = [alpha; beta]
  /\ map (groupLabel group_year) (currentMovies byYear) = ["2024"; "2023"]
  /\ groupedMovies byYear = [("2024", [alpha]); ("2023", [beta])]
  /\ JS.Object_entries (groupedMovies byYear)
     = [("2023", [beta]); ("2024", [alpha])].
Proof. repeat split; vm_compute; reflexivity. Qed.

(** C2 as stated fails without grouping: nothing passes the filter, yet
    the grouped page has one bucket. *)
Lemma ungrouped_empty_page_has_a_bucket :
  filteredMovies noMatch = []
  /\ groupBy noMatch = group_none
  /\ JS.Object_entries (groupedMovies noMatch) = [("All Movies", [])]
  /\ JS.Object_entries (groupedMovies noMatch) <> [].
Proof. repeat split; try reflexivity. discriminate. Qed.

Lemma empty_filtered_state_witness :
  filteredMovies noMatch = [] /\ 0 < itemsPerPage noMatch
  /\ totalPages noMatch = 0 /\ filteredCount noMatch = 0.
Proof.
  assert (H1 : filteredMovies noMatch = []) by reflexivity.
  assert (H2 : 0 < itemsPerPage noMatch) by reflexivity.
  pose proof (empty_filtered_state noMatch H1 H2) as (Hp & Hc & _).
  repeat split; assumption.
Defined.

Lemma totalPages_is_ceiling_witness :
  0 < itemsPerPage secondPage
  /\ filteredCount secondPage = 2 /\ totalPages secondPage = 2
  /\ itemsPerPage secondPage * (totalPages secondPage - 1)
     < filteredCount secondPage
     <= itemsPerPage secondPage * totalPages secondPage.
Proof.
  assert (H : 0 < itemsPerPage secondPage) by reflexivity.
  split; [exact H |]. split; [reflexivity |]. split; [reflexivity |].
  apply (totalPages_is_ceiling secondPage H).
Defined.

Lemma date_range_filter_witness :
  (from (dateRange fromJanuary) <> "" \/ to (dateRange fromJanuary) <> "")
  /\ In gamma (movies fromJanuary)
  /\ undated gamma
  /\ In gamma (dateStage fromJanuary (movies fromJanuary)).
Proof.
  assert (H1 : from (dateRange fromJanuary) <> ""
               \/ to (dateRange fromJanuary) <> "")
    by (left; discriminate).
  assert (H2 : In gamma (movies fromJanuary))
    by (right; right; left; reflexivity).
  assert (H3 : undated gamma) by (left; reflexivity).
  repeat split; try assumption.
  apply (date_range_filter fromJanuary (movies fromJanuary) gamma H1 H2).
  exact H3.
Defined.

(** Scenario F and its converse: with the lower bound 2024-01-01 the
    undated entry and the one of March 2024 pass, those of 2023 and 1969
    do not. *)
Example scenario_F :
  dateStage fromJanuary (movies fromJanuary) = [alpha; gamma]
  /\ Date_parse "2024-01-01" = JS.Int 1704067200000
  /\ map sortDate [alpha; beta; delta]
     = [JS.Int 1710498030123; JS.Int 1698912000000; JS.Int (-1)].
Proof. repeat split; vm_compute; reflexivity. Qed.

(** Scenario E: grouped by year, the undated entry is filed under
    "Unknown". *)
Example scenario_E :
  groupLabel group_year gamma = "Unknown"
  /\ JS.obj_get (groupedMovies (dispatch (GroupSelect group_year) four))
                "Unknown" = Some [gamma].
Proof. split; reflexivity. Qed.

Lemma change_resets_page_witness :
  currentPage secondPage = 2
  /\ queryInputs (fst (handle (SearchInput "a") secondPage))
     <> queryInputs secondPage
  /\ currentPage (dispatch (SearchInput "a") secondPage) = 1.
Proof.
  assert (H : queryInputs (fst (handle (SearchInput "a") secondPage))
              <> queryInputs secondPage) by discriminate.
  split; [reflexivity |]. split; [exact H |].
  apply (change_resets_page (SearchInput "a") secondPage H).
Defined.


End ScenarioFacts.

(* ------------------------------------------------------------------ *)
(** * More about the filter stage *)

Section FilterFacts.
Context {host : Host}.

Lemma prefix_split (q t : string) :
  prefix q t = true <-> exists post, t = (q ++ post)%string.
Proof.
  revert t. induction q as [| c q IH]; intros t; simpl.
  - destruct t; split; eauto.
  - destruct t as [| c' t]; simpl.
    + split; [discriminate | intros [post H]; discriminate].
    + destruct (ascii_dec c c') as [-> | Hne].
      * rewrite IH. split; intros [post H]; exists post; congruence.
      * split; [discriminate |]. intros [post H]. congruence.
Qed.

Lemma includes_unfold (t q : string) :
  JS.includes t q
  = prefix q t || match t with
                  | EmptyString => false
                  | String _ t' => JS.includes t' q
                  end.
Proof. destruct t; reflexivity. Qed.

Lemma includes_occurs (t q : string) :
  JS.includes t q = true <-> occurs q t.
Proof.
  unfold occurs. split.
  - induction t as [| c t IH]; rewrite includes_unfold, orb_true_iff.
    + intros [H | H]; [| discriminate].
      apply prefix_split in H. destruct H as [post H].
      exists "", post. exact H.
    + intros [H | H].
      * apply prefix_split in H. destruct H as [post H].
        exists "", post. exact H.
      * destruct (IH H) as (pre & post & E).
        exists (String c pre), post. simpl. congruence.
  - intros (pre & post & E). revert t E.
    induction pre as [| c pre IH]; intros t E; simpl in E.
    + rewrite includes_unfold.
      replace (prefix q t) with true; [reflexivity |].
      symmetry. apply prefix_split. eauto.
    + subst t. rewrite includes_unfold, (IH _ eq_refl). apply orb_true_r.
Qed.

Lemma includes_opt_occurs (x : option string) (q : string) :
  includes_opt x q = true <-> exists v, x = Some v /\ occurs q (toLowerCase v).
Proof.
  unfold includes_opt. destruct x as [v |].
  - rewrite includes_occurs. split.
    + intros H. exists v. tauto.
    + intros (v' & [= <-] & H). exact H.
  - split; [discriminate | intros (v & H & _); discriminate].
Qed.

(** X1: the search keeps an entry when the query is blank, or when the
    lower-cased query (untrimmed) occurs in the lower-cased title, genre
    or description; a missing genre or description never matches. *)
Theorem search_keeps_matches (s : State) (result : list FilmHistory)
    (movie : FilmHistory) :
  In movie (searchStage s result)
  <-> In movie result
      /\ (trim (searchQuery s) = ""
          \/ occurs (toLowerCase (searchQuery s)) (toLowerCase (name movie))
          \/ (exists g, genre movie = Some g
                /\ occurs (toLowerCase (searchQuery s)) (toLowerCase g))
          \/ (exists d, description movie = Some d
                /\ occurs (toLowerCase (searchQuery s)) (toLowerCase d))).
Proof.
  unfold searchStage.
  destruct (JS.truthy (trim (searchQuery s))) eqn:Hq.
  - apply truthy_true in Hq.
    rewrite filter_In. unfold searchPred.
    rewrite !orb_true_iff, includes_occurs, !includes_opt_occurs. tauto.
  - apply truthy_false in Hq. tauto.
Qed.

(** X2: the genre filter does nothing while no genre is selected; otherwise
    it keeps the entries whose genre is one of the selected ones, and
    drops those without a genre. *)
Theorem genre_keeps_selected (s : State) (result : list FilmHistory)
    (movie : FilmHistory) :
  In movie (genreStage s result)
  <-> In movie result
      /\ (selectedGenres s = []
          \/ exists g, genre movie = Some g /\ g <> ""
                       /\ In g (selectedGenres s)).
Proof.
  unfold genreStage. destruct (selectedGenres s) as [| g0 sel] eqn:Hsel.
  - simpl. tauto.
  - replace (0 <? Z.of_nat (List.length (g0 :: sel))) with true
      by (symmetry; apply Z.ltb_lt; simpl; lia).
    rewrite filter_In. unfold genrePred.
    destruct (genre movie) as [g |].
    + rewrite andb_true_iff, truthy_true, JSFacts.array_includes_In.
      split.
      * intros (Hin & Hne & Hg). split; [exact Hin |]. right. eauto.
      * intros (Hin & [H | (g' & [= <-] & Hne & Hg)]); [discriminate | tauto].
    + split; [intros [_ H]; discriminate |].
      intros (_ & [H | (g' & H & _)]); discriminate.
Qed.

(** X3: the rating filter does nothing on "all"; otherwise it keeps exactly
    the entries whose rating is the selected value, so an entry without
    rating is dropped. *)
Theorem rating_keeps_exact (s : State) (result : list FilmHistory)
    (movie : FilmHistory) :
  In movie (ratingStage s result)
  <-> In movie result
      /\ (ratingFilter s = "all" \/ rating movie = Some (ratingFilter s)).
Proof.
  unfold ratingStage.
  destruct (String.eqb_spec (ratingFilter s) "all") as [E | Hne]; simpl.
  - tauto.
  - rewrite filter_In. unfold ratingPred.
    destruct (rating movie) as [r |].
    + rewrite String.eqb_eq. split.
      * intros [Hin ->]. tauto.
      * intros [Hin [H | [= ->]]]; tauto.
    + split; [intros [_ H]; discriminate |].
      intros [_ [H | H]]; [tauto | discriminate].
Qed.

Lemma guarded_filter {A : Type} (c : bool) (p : A -> bool) (l : list A) :
  (if c then filter p l else l) = filter (fun x => negb c || p x) l.
Proof.
  destruct c; simpl; [reflexivity |].
  induction l as [| x l IH]; simpl; congruence.
Qed.

Lemma filter_twice {A : Type} (f g : A -> bool) (l : list A) :
  filter g (filter f l) = filter (fun x => f x && g x) l.
Proof.
  induction l as [| x l IH]; simpl; [reflexivity |].
  destruct (f x); simpl; [destruct (g x) |]; congruence.
Qed.

Lemma filterStage_passes (s : State) :
  filterStage s = filter (passes s) (movies s).
Proof.
  unfold filterStage; cbv zeta. rewrite yearStage_id.
  unfold dateStage, durationStage, ratingStage, genreStage, searchStage.
  rewrite !guarded_filter, !filter_twice.
  apply filter_ext. intros movie. unfold passes.
  rewrite !negb_involutive, !andb_assoc. reflexivity.
Qed.

(** X4: the filters combine by conjunction: the entries that reach the sort
    are the entries of the base collection that satisfy every active
    criterion, in base order, so the order in which the criteria are
    applied has no effect. *)
Theorem filters_combine_by_and (s : State) :
  filterStage s = filter (passes s) (movies s)
  /\ filterStage s
     = searchStage s (genreStage s (ratingStage s (durationStage s
         (dateStage s (movies s)))))
  /\ (forall movie,
        In movie (filterStage s)
        <-> In movie (searchStage s (movies s))
            /\ In movie (genreStage s (movies s))
            /\ In movie (ratingStage s (movies s))
            /\ In movie (durationStage s (movies s))
            /\ In movie (dateStage s (movies s))).
Proof.
  split; [apply filterStage_passes |]. split.
  - rewrite filterStage_passes.
    unfold dateStage, durationStage, ratingStage, genreStage, searchStage.
    rewrite !guarded_filter, !filter_twice.
    apply filter_ext. intros movie. unfold passes.
    rewrite !negb_involutive.
    repeat match goal with
           | |- context [?a || ?b] =>
               let x := fresh "c" in set (x := a || b)
           end.
    destruct c, c0, c1, c2, c3; reflexivity.
  - intros movie. rewrite filterStage_passes.
    unfold dateStage, durationStage, ratingStage, genreStage, searchStage.
    rewrite !guarded_filter, !filter_In. unfold passes.
    rewrite !andb_true_iff, !negb_involutive. tauto.
Qed.

(** X5: "Reset All Filters" shows the whole collection again: on a host
    whose [trim] leaves the empty string empty, every entry passes, the
    filtered count equals the total and the first page is shown; the sort
    key is kept. *)
Theorem reset_shows_everything (s : State) :
  trim "" = "" ->
  let s' := dispatch ResetClick s in
  filterStage s' = movies s
  /\ Permutation (movies s) (filteredMovies s')
  /\ filteredCount s' = totalMovies s'
  /\ currentPage s' = 1
  /\ sortBy s' = sortBy s.
Proof.
  intros Htrim s'.
  assert (E : filterStage s' = movies s).
  { subst s'. unfold dispatch, handle. simpl.
    unfold filterStage, searchStage, genreStage, ratingStage, durationStage,
      yearStage, dateStage. simpl. rewrite Htrim. reflexivity. }
  assert (P : Permutation (movies s) (filteredMovies s')).
  { rewrite <- E. subst s'. unfold dispatch, handle. simpl.
    apply JSFacts.sort_perm. }
  repeat split; try assumption; try reflexivity.
  unfold filteredCount, totalMovies.
  rewrite <- (Permutation_length P). reflexivity.
Qed.

(** X6: the three duration buckets split any list: each entry falls in
    exactly one of "short", "medium" and "long", so the three filtered
    lists together are a rearrangement of the list. *)
Theorem duration_buckets_partition (s : State) (result : list FilmHistory) :
  Permutation result
    (durationStage (setDurationFilter "short" s) result
     ++ durationStage (setDurationFilter "medium" s) result
     ++ durationStage (setDurationFilter "long" s) result)
  /\ (forall movie,
        (if durationPred "short" movie then 1 else 0)
        + (if durationPred "medium" movie then 1 else 0)
        + (if durationPred "long" movie then 1 else 0) = 1).
Proof.
  assert (Hone : forall movie,
             (if durationPred "short" movie then 1 else 0)
             + (if durationPred "medium" movie then 1 else 0)
             + (if durationPred "long" movie then 1 else 0) = 1).
  { intros movie. unfold durationPred; simpl.
    destruct (Z.ltb_spec (JS.or_zero (duration movie)) 90);
      destruct (Z.leb_spec 90 (JS.or_zero (duration movie)));
      destruct (Z.leb_spec (JS.or_zero (duration movie)) 120);
      destruct (Z.ltb_spec 120 (JS.or_zero (duration movie)));
      simpl; lia. }
  split; [| exact Hone].
  unfold durationStage; simpl.
  induction result as [| m result IH]; simpl; [constructor |].
  specialize (Hone m).
  destruct (durationPred "short" m), (durationPred "medium" m),
    (durationPred "long" m); try lia; simpl.
  - constructor. exact IH.
  - apply Permutation_cons_app. exact IH.
  - rewrite app_assoc. apply Permutation_cons_app.
    rewrite <- app_assoc. exact IH.
Qed.

(** X7: with the lower bound of the date range later than the upper bound,
    no entry with a valid date passes the date filter: what is kept is
    the entries without a date and those whose date is invalid. *)
Theorem inverted_range_keeps_undated (s : State) (result : list FilmHistory)
    (movie : FilmHistory) (f u : Z) :
  from (dateRange s) <> "" -> to (dateRange s) <> "" ->
  Date_parse (from (dateRange s)) = JS.Int f ->
  Date_parse (to (dateRange s)) = JS.Int u ->
  u < f ->
  In movie (dateStage s result)
  <-> In movie result
      /\ (undated movie \/ movieDate movie = Some JS.NaN).
Proof.
  intros Hf Hu Pf Pu Hlt.
  rewrite (dateStage_active s result (or_introl Hf)), filter_In.
  rewrite <- movieDate_undated.
  unfold datePred, JS.date_lt.
  apply truthy_true in Hf. apply truthy_true in Hu.
  rewrite Hf, Hu, Pf, Pu. simpl.
  destruct (movieDate movie) as [[| t] |]; simpl.
  - intuition.
  - destruct (Z.ltb_spec t f); simpl.
    + split; [intros [_ H']; discriminate |].
      intros [_ [H' | H']]; discriminate.
    + destruct (Z.ltb_spec u t); [| lia].
      split; [intros [_ H']; discriminate |].
      intros [_ [H' | H']]; discriminate.
  - intuition.
Qed.

End FilterFacts.

(* ------------------------------------------------------------------ *)
(** * The genre chips *)

Section DistinctFacts.
Context {A : Type} (same : A -> A -> bool).
Hypothesis same_eq : forall x y, same x y = true <-> x = y.

Lemma existsb_same (x : A) (l : list A) :
  existsb (same x) l = true <-> In x l.
Proof.
  rewrite existsb_exists. split.
  - intros (y & Hin & Hs). apply same_eq in Hs. congruence.
  - intros Hin. exists x. split; [exact Hin | apply same_eq; reflexivity].
Qed.

Lemma Set_add_In (seen : list A) (x y : A) :
  In y (JS.Set_add same seen x) <-> In y seen \/ y = x.
Proof.
  unfold JS.Set_add. destruct (existsb (same x) seen) eqn:E.
  - apply existsb_same in E. split; [tauto |]. intros [H | ->]; assumption.
  - rewrite in_app_iff. simpl. intuition.
Qed.

Lemma Set_add_NoDup (seen : list A) (x : A) :
  NoDup seen -> NoDup (JS.Set_add same seen x).
Proof.
  intros Hnd. unfold JS.Set_add. destruct (existsb (same x) seen) eqn:E.
  - exact Hnd.
  - apply NoDup_app; [exact Hnd | repeat constructor; intros [] |].
    intros y Hy [<- | []].
    apply existsb_same in Hy. congruence.
Qed.

Lemma fold_Set_add (l seen : list A) :
  NoDup seen ->
  NoDup (fold_left (JS.Set_add same) l seen)
  /\ forall y, In y (fold_left (JS.Set_add same) l seen) <-> In y seen \/ In y l.
Proof.
  revert seen. induction l as [| x l IH]; intros seen Hnd; simpl.
  - split; [exact Hnd | tauto].
  - destruct (IH _ (Set_add_NoDup seen x Hnd)) as [H1 H2].
    split; [exact H1 |]. intros y. rewrite H2, Set_add_In.
    intuition.
Qed.

Lemma Array_from_Set_spec (l : list A) :
  NoDup (JS.Array_from_Set same l)
  /\ forall y, In y (JS.Array_from_Set same l) <-> In y l.
Proof.
  destruct (fold_Set_add l [] (NoDup_nil A)) as [H1 H2].
  split; [exact H1 |]. intros y. unfold JS.Array_from_Set. rewrite H2.
  simpl. tauto.
Qed.
End DistinctFacts.

Section GenreFacts.
Context {host : Host}.

Lemma bool_eq_iff (a b : bool) : (a = true <-> b = true) -> a = b.
Proof. destruct a, b; intuition congruence. Qed.

Lemma toggle_includes (prev : list string) (g x : string) :
  JS.array_includes
    (if JS.array_includes prev g
     then filter (fun g' => negb (g' =? g)%string) prev
     else prev ++ [g]) x
  = if (x =? g)%string then negb (JS.array_includes prev g)
    else JS.array_includes prev x.
Proof.
  apply bool_eq_iff. rewrite JSFacts.array_includes_In.
  destruct (JS.array_includes prev g) eqn:Hg.
  - rewrite filter_In, negb_true_iff, String.eqb_neq.
    destruct (String.eqb_spec x g) as [-> | Hne]; simpl.
    + split; [tauto | discriminate].
    + rewrite JSFacts.array_includes_In. tauto.
  - rewrite in_app_iff. simpl.
    destruct (String.eqb_spec x g) as [-> | Hne]; simpl.
    + tauto.
    + rewrite JSFacts.array_includes_In. intuition congruence.
Qed.

(** X8: a click on a genre chip flips that genre in the selection and
    leaves every other genre as it was. *)
Theorem genre_chip_flips (g x : string) (s : State) :
  JS.array_includes (selectedGenres (dispatch (GenreChip g) s)) x
  = if (x =? g)%string then negb (JS.array_includes (selectedGenres s) g)
    else JS.array_includes (selectedGenres s) x.
Proof.
  unfold dispatch, handle. simpl. apply toggle_includes.
Qed.

Lemma genrePred_ext (sel sel' : list string) (movie : FilmHistory) :
  (forall x, JS.array_includes sel x = JS.array_includes sel' x) ->
  genrePred sel movie = genrePred sel' movie.
Proof.
  intros H. unfold genrePred. destruct (genre movie); [| reflexivity].
  rewrite H. reflexivity.
Qed.

Lemma genreStage_ext (s s' : State) (result : list FilmHistory) :
  (forall x, JS.array_includes (selectedGenres s) x
             = JS.array_includes (selectedGenres s') x) ->
  genreStage s result = genreStage s' result.
Proof.
  intros H. unfold genreStage.
  destruct (selectedGenres s) as [| a sel] eqn:E;
    destruct (selectedGenres s') as [| a' sel'] eqn:E'.
  - reflexivity.
  - specialize (H a'). simpl in H. rewrite String.eqb_refl in H. discriminate.
  - specialize (H a). simpl in H. rewrite String.eqb_refl in H. discriminate.
  - replace (0 <? Z.of_nat (List.length (a :: sel))) with true
      by (symmetry; apply Z.ltb_lt; simpl; lia).
    replace (0 <? Z.of_nat (List.length (a' :: sel'))) with true
      by (symmetry; apply Z.ltb_lt; simpl; lia).
    apply filter_ext. intros movie. apply genrePred_ext. exact H.
Qed.

(** X9: two clicks on the same genre chip leave the list unchanged: the
    entries that reach the sort, and the filtered subset stored, are the
    same as before the two clicks. *)
Theorem genre_chip_twice (g : string) (s : State) :
  let s2 := dispatch (GenreChip g) (dispatch (GenreChip g) s) in
  filterStage s2 = filterStage s
  /\ filteredMovies s2 = filteredMovies (applyFilters s).
Proof.
  intros s2.
  assert (Hinc : forall x,
             JS.array_includes (selectedGenres s2) x
             = JS.array_includes (selectedGenres s) x).
  { intros x. subst s2. unfold dispatch, handle. simpl.
    rewrite !toggle_includes.
    destruct (String.eqb_spec x g) as [-> | Hne]; [| reflexivity].
    rewrite String.eqb_refl. apply negb_involutive. }
  assert (E : filterStage s2 = filterStage s).
  { unfold filterStage; cbv zeta.
    rewrite (genreStage_ext s2 s _ Hinc). reflexivity. }
  split; [exact E |].
  change (filteredMovies s2)
    with (JS.sort (compareMovies (sortBy s)) (filterStage s2)).
  rewrite E. reflexivity.
Qed.

Lemma toggle_NoDup (prev : list string) (g : string) :
  NoDup prev ->
  NoDup (if JS.array_includes prev g
         then filter (fun g' => negb (g' =? g)%string) prev
         else prev ++ [g]).
Proof.
  intros Hnd. destruct (JS.array_includes prev g) eqn:Hg.
  - apply NoDup_filter. exact Hnd.
  - apply NoDup_app; [exact Hnd | repeat constructor; intros [] |].
    intros y Hy [<- | []].
    apply JSFacts.array_includes_In in Hy. congruence.
Qed.

(** X10: no event puts a genre twice in the selection: a selection without
    duplicates stays without duplicates. *)
Theorem selection_stays_distinct (e : Event) (s : State) :
  NoDup (selectedGenres s) -> NoDup (selectedGenres (dispatch e s)).
Proof.
  intros Hnd. unfold dispatch.
  assert (H : NoDup (selectedGenres (fst (handle e s)))).
  { destruct e; simpl; try exact Hnd.
    - apply toggle_NoDup. exact Hnd.
    - constructor.
    - destruct (_ && _); exact Hnd.
    - destruct (_ && _); exact Hnd. }
  destruct (handle e s) as [s' fresh]. simpl in H.
  destruct (fresh || primitiveDepsChanged s s'); exact H.
Qed.

Lemma filter_Boolean_string_In (l : list (option string)) (g : string) :
  In g (JS.filter_Boolean_string l) <-> In (Some g) l /\ g <> "".
Proof.
  unfold JS.filter_Boolean_string. rewrite in_flat_map. split.
  - intros ([v |] & Hin & Hg); [| destruct Hg].
    destruct (JS.truthy v) eqn:Hv; [| destruct Hg].
    destruct Hg as [<- | []]. apply truthy_true in Hv. tauto.
  - intros [Hin Hne]. exists (Some g). split; [exact Hin |].
    apply truthy_true in Hne. rewrite Hne. left. reflexivity.
Qed.

Lemma availableGenres_In (s : State) (g : string) :
  In g (availableGenres s)
  <-> exists movie, In movie (movies s) /\ genre movie = Some g /\ g <> "".
Proof.
  unfold availableGenres.
  destruct (Array_from_Set_spec String.eqb String.eqb_eq
              (JS.filter_Boolean_string (map genre (movies s)))) as [_ H].
  rewrite H, filter_Boolean_string_In, in_map_iff. split.
  - intros [(m & Hg & Hin) Hne]. exists m. tauto.
  - intros (m & Hin & Hg & Hne). split; [exists m; tauto | exact Hne].
Qed.

(** X11: the genre chips offered are the non-empty genres of the base
    collection, each once. *)
Theorem availableGenres_distinct (s : State) :
  NoDup (availableGenres s)
  /\ forall g,
       In g (availableGenres s)
       <-> exists movie,
             In movie (movies s) /\ genre movie = Some g /\ g <> "".
Proof.
  split; [| apply availableGenres_In].
  unfold availableGenres. apply Array_from_Set_spec. apply String.eqb_eq.
Qed.

Lemma filterStage_perm (s : State) :
  Permutation (filterStage s) (filteredMovies (applyFilters s)).
Proof. simpl. apply JSFacts.sort_perm. Qed.

Lemma filterStage_one_genre (g : string) (s : State) :
  trim "" = "" ->
  filterStage (toggleGenre g (applyFilters (resetFilters s)))
  = filter (genrePred [g]) (movies s).
Proof.
  intros Htrim.
  unfold filterStage, searchStage, genreStage, ratingStage, durationStage,
    yearStage, dateStage.
  cbn [searchQuery selectedGenres ratingFilter durationFilter yearFilter
       dateRange movies from to toggleGenre applyFilters resetFilters
       setSearchQuery setSelectedGenres setRatingFilter setDurationFilter
       setYearFilter setDateRange setCurrentPage setFilteredMovies].
  rewrite Htrim. reflexivity.
Qed.

(** X12: starting from reset filters, a click on any chip offered never
    empties the list: at least one entry of that genre is shown. *)
Theorem offered_chip_finds_a_movie (g : string) (s : State) :
  trim "" = "" ->
  In g (availableGenres s) ->
  let s' := dispatch (GenreChip g) (dispatch ResetClick s) in
  exists movie,
    In movie (filteredMovies s') /\ genre movie = Some g.
Proof.
  intros Htrim Hg s'.
  apply availableGenres_In in Hg. destruct Hg as (m & Hin & Hgm & Hne).
  exists m. split; [| exact Hgm].
  assert (Hs' : s' = applyFilters
                       (toggleGenre g (applyFilters (resetFilters s))))
    by reflexivity.
  rewrite Hs'. apply (Permutation_in _ (filterStage_perm _)).
  rewrite (filterStage_one_genre g s Htrim).
  apply filter_In. split; [exact Hin |].
  unfold genrePred. rewrite Hgm. apply truthy_true in Hne. rewrite Hne.
  simpl. rewrite String.eqb_refl. reflexivity.
Qed.

Lemma filter_Boolean_number_In (l : list (option JS.number)) (y : Z) :
  In y (JS.filter_Boolean_number l) <-> In (Some (JS.Int y)) l /\ y <> 0.
Proof.
  unfold JS.filter_Boolean_number. rewrite in_flat_map. split.
  - intros ([[| z] |] & Hin & Hy); try destruct Hy.
    destruct (Z.eqb_spec z 0); [destruct Hy |].
    destruct Hy as [<- | []]. tauto.
  - intros [Hin Hne]. exists (Some (JS.Int y)). split; [exact Hin |].
    destruct (Z.eqb_spec y 0); [tauto | left; reflexivity].
Qed.

(** X13: the years computed for the year control are the years of the
    validly dated entries, year 0 left out, each once and from the most
    recent to the oldest. *)
Theorem availableYears_descending (s : State) :
  StronglySorted (fun a b => b < a) (availableYears s)
  /\ forall y,
       In y (availableYears s)
       <-> exists movie t,
             In movie (movies s) /\ movieDate movie = Some (JS.Int t)
             /\ getFullYear t = y /\ y <> 0.
Proof.
  unfold availableYears.
  set (years := JS.filter_Boolean_number _).
  destruct (Array_from_Set_spec Z.eqb Z.eqb_eq years) as [Hnd Hin].
  set (distinct := JS.Array_from_Set Z.eqb years) in *.
  set (cmp := fun a b : Z => JS.Int (b - a)).
  assert (P : Permutation distinct (JS.sort cmp distinct))
    by apply JSFacts.sort_perm.
  assert (S : StronglySorted (JS.before cmp) (JS.sort cmp distinct)).
  { apply (JSFacts.sort_sorted cmp (fun _ => True)).
    - intros a b _ _. unfold JS.before, cmp. simpl. lia.
    - intros a b c _ _ _. unfold JS.before, cmp. simpl. lia.
    - apply Forall_forall. intros; exact I. }
  assert (Hnd' : NoDup (JS.sort cmp distinct))
    by (apply (Permutation_NoDup P); exact Hnd).
  split.
  - revert S Hnd'. generalize (JS.sort cmp distinct). intros l S.
    induction S as [| a l S IH Ha]; intros Hnd'; constructor.
    + apply IH. inversion Hnd'; assumption.
    + inversion Hnd' as [| ? ? Hna _]; subst.
      rewrite Forall_forall in Ha |- *. intros b Hb.
      specialize (Ha b Hb). unfold JS.before, cmp in Ha. simpl in Ha.
      assert (a <> b) by (intros ->; tauto). lia.
  - intros y. split.
    + intros Hy. apply (Permutation_in _ (Permutation_sym P)) in Hy.
      apply Hin in Hy. subst years.
      apply filter_Boolean_number_In in Hy. destruct Hy as [Hy Hne].
      apply in_map_iff in Hy. destruct Hy as (m & Hm & Hmin).
      destruct (movieDate m) as [[| t] |] eqn:Hd; simpl in Hm;
        try discriminate.
      injection Hm as Hm. exists m, t. tauto.
    + intros (m & t & Hmin & Hd & Hy & Hne).
      apply (Permutation_in _ P). apply Hin. subst years.
      apply filter_Boolean_number_In. split; [| exact Hne].
      apply in_map_iff. exists m. rewrite Hd. simpl. split; [| exact Hmin].
      congruence.
Qed.

End GenreFacts.

(* ------------------------------------------------------------------ *)
(** * Pages *)

Section PageFacts.
Context {host : Host}.

Lemma slice_nat {A : Type} (l : list A) (a b : nat) :
  (a <= b)%nat ->
  JS.slice l (Z.of_nat a) (Z.of_nat b) = firstn (b - a) (skipn a l).
Proof.
  intros Hab. unfold JS.slice.
  destruct (Z.ltb_spec (Z.of_nat a) 0); [lia |].
  destruct (Z.ltb_spec (Z.of_nat b) 0); [lia |].
  destruct (Nat.le_gt_cases a (List.length l)) as [Ha | Ha].
  - replace (Z.to_nat (Z.min (Z.of_nat a) (Z.of_nat (List.length l))))
      with a by lia.
    destruct (Nat.le_gt_cases b (List.length l)) as [Hb | Hb].
    + f_equal. lia.
    + rewrite (firstn_all2 (n := b - a)) by (rewrite length_skipn; lia).
      apply firstn_all2. rewrite length_skipn. lia.
  - replace (Z.to_nat (Z.min (Z.of_nat a) (Z.of_nat (List.length l))))
      with (List.length l) by lia.
    rewrite (skipn_all2 (n := a)) by lia.
    rewrite skipn_all, !firstn_nil. reflexivity.
Qed.

Lemma pageOf_chunk (s : State) (p : Z) :
  0 < itemsPerPage s -> 1 <= p ->
  pageOf s p
  = firstn (Z.to_nat (itemsPerPage s))
           (skipn (Z.to_nat (p - 1) * Z.to_nat (itemsPerPage s))
                  (filteredMovies s)).
Proof.
  intros Hn Hp. unfold pageOf, currentMovies, endIndex, startIndex. simpl.
  assert (E1 : (p - 1) * itemsPerPage s
               = Z.of_nat (Z.to_nat (p - 1) * Z.to_nat (itemsPerPage s)))
    by (rewrite Nat2Z.inj_mul, !Z2Nat.id by lia; reflexivity).
  assert (E2 : (p - 1) * itemsPerPage s + itemsPerPage s
               = Z.of_nat (Z.to_nat (p - 1) * Z.to_nat (itemsPerPage s)
                           + Z.to_nat (itemsPerPage s)))
    by (rewrite Nat2Z.inj_add, Nat2Z.inj_mul, !Z2Nat.id by lia; reflexivity).
  rewrite E2, E1, slice_nat by lia. f_equal. lia.
Qed.

Lemma firstn_plus {A : Type} (a b : nat) (l : list A) :
  firstn (a + b) l = firstn a l ++ firstn b (skipn a l).
Proof.
  revert l. induction a as [| a IH]; intros l; simpl; [reflexivity |].
  destruct l as [| x l]; simpl.
  - rewrite firstn_nil. reflexivity.
  - rewrite IH. reflexivity.
Qed.

Lemma chunks_concat {A : Type} (n k : nat) (l : list A) :
  List.concat (map (fun i => firstn n (skipn (i * n) l)) (seq 0 k))
  = firstn (k * n) l.
Proof.
  induction k as [| k IH].
  - reflexivity.
  - rewrite seq_S, map_app, List.concat_app, IH. simpl.
    rewrite app_nil_r, <- firstn_plus. f_equal. lia.
Qed.

Lemma pageOf_length (s : State) (p : Z) :
  0 < itemsPerPage s -> 1 <= p ->
  Z.of_nat (List.length (pageOf s p))
  = Z.max 0 (Z.min (itemsPerPage s)
                   (filteredCount s - (p - 1) * itemsPerPage s)).
Proof.
  intros Hn Hp. rewrite (pageOf_chunk s p Hn Hp).
  rewrite length_firstn, length_skipn. unfold filteredCount. nia.
Qed.

(** X14: for a positive page size the pages [1 .. totalPages], one after the
    other, give back the filtered list: paging loses no entry, repeats
    none and keeps the order. *)
Theorem pages_cover_filtered_list (s : State) :
  0 < itemsPerPage s ->
  List.concat (map (pageOf s) (pageNumbers (totalPages s))) = filteredMovies s.
Proof.
  intros Hn. unfold pageNumbers. rewrite map_map.
  rewrite (map_ext_in _
             (fun i => firstn (Z.to_nat (itemsPerPage s))
                         (skipn (i * Z.to_nat (itemsPerPage s))
                                (filteredMovies s)))).
  - rewrite chunks_concat. apply firstn_all2.
    pose proof (totalPages_bounds s Hn) as H. unfold filteredCount in H. nia.
  - intros i _. rewrite pageOf_chunk by lia. do 2 f_equal. lia.
Qed.

(** X15: for a positive page size, page [p] holds
    [min(itemsPerPage, filteredCount - (p - 1) * itemsPerPage)] entries:
    every page up to [totalPages] has at least one entry, every page
    before the last is full, and a page after [totalPages] is empty. *)
Theorem page_sizes (s : State) (p : Z) :
  0 < itemsPerPage s -> 1 <= p ->
  let size := Z.of_nat (List.length (pageOf s p)) in
  size = Z.max 0 (Z.min (itemsPerPage s)
                        (filteredCount s - (p - 1) * itemsPerPage s))
  /\ (p <= totalPages s -> 1 <= size <= itemsPerPage s)
  /\ (p < totalPages s -> size = itemsPerPage s)
  /\ (totalPages s < p -> pageOf s p = []).
Proof.
  intros Hn Hp size. subst size.
  pose proof (pageOf_length s p Hn Hp) as Hlen.
  pose proof (totalPages_bounds s Hn) as Hb.
  repeat split; try (intros; nia).
  intros Hgt. apply length_zero_iff_nil. nia.
Qed.

Lemma primitiveDeps_same_page (s : State) (p : Z) :
  primitiveDepsChanged s (setCurrentPage p s) = false.
Proof.
  unfold primitiveDepsChanged. simpl. rewrite !String.eqb_refl.
  destruct (sortBy s); reflexivity.
Qed.

Lemma primitiveDeps_refl (s : State) : primitiveDepsChanged s s = false.
Proof.
  unfold primitiveDepsChanged. rewrite !String.eqb_refl.
  destruct (sortBy s); reflexivity.
Qed.

Lemma dispatch_Previous (s : State) :
  dispatch PreviousClick s
  = if (1 <? totalPages s) && negb (currentPage s =? 1)
    then setCurrentPage (Z.max 1 (currentPage s - 1)) s else s.
Proof.
  unfold dispatch, handle. destruct (_ && _); simpl.
  - rewrite primitiveDeps_same_page. reflexivity.
  - rewrite primitiveDeps_refl. reflexivity.
Qed.

Lemma dispatch_Next (s : State) :
  dispatch NextClick s
  = if (1 <? totalPages s) && negb (currentPage s =? totalPages s)
    then setCurrentPage (Z.min (totalPages s) (currentPage s + 1)) s else s.
Proof.
  unfold dispatch, handle. destruct (_ && _); simpl.
  - rewrite primitiveDeps_same_page. reflexivity.
  - rewrite primitiveDeps_refl. reflexivity.
Qed.

Lemma setCurrentPage_same (s : State) (p q : Z) :
  currentPage s = q -> setCurrentPage q (setCurrentPage p s) = s.
Proof. intros <-. destruct s; reflexivity. Qed.

(** X16: every event keeps the current page among the pages there are:
    from a state with [1 <= currentPage <= max(1, totalPages)] every
    event leads to such a state. *)
Theorem page_stays_in_range (e : Event) (s : State) :
  pageInRange s -> pageInRange (dispatch e s).
Proof.
  intros Hr.
  assert (Hfirst : forall s', pageInRange (applyFilters s'))
    by (intros s'; unfold pageInRange; simpl; lia).
  destruct e;
    try (unfold dispatch, handle;
         match goal with
         | |- pageInRange (if ?c then _ else _) => destruct c
         end; [apply Hfirst | assumption || (unfold pageInRange; simpl; lia)]).
  - rewrite dispatch_Previous.
    destruct (_ && _); [| exact Hr].
    unfold pageInRange in *.
    change (totalPages (setCurrentPage _ s)) with (totalPages s).
    simpl. lia.
  - rewrite dispatch_Next.
    destruct ((1 <? totalPages s) && negb (currentPage s =? totalPages s))
      eqn:Hc; [| exact Hr].
    apply andb_true_iff in Hc. destruct Hc as [H1 H2].
    apply Z.ltb_lt in H1. apply negb_true_iff, Z.eqb_neq in H2.
    unfold pageInRange in *.
    change (totalPages (setCurrentPage _ s)) with (totalPages s).
    simpl. lia.
Qed.

(** X17: on a page in range, with a positive page size and a non-empty
    filtered list, the page shown is not empty, and the range printed in
    the pagination bar, from [startIndex + 1] to
    [min(endIndex, filteredCount)], counts exactly the entries shown. *)
Theorem shown_range_matches_page (s : State) :
  pageInRange s -> 0 < itemsPerPage s -> filteredMovies s <> [] ->
  currentMovies s <> []
  /\ 1 <= rangeFirst s <= rangeLast s
  /\ rangeLast s <= filteredCount s
  /\ rangeLast s - rangeFirst s + 1
     = Z.of_nat (List.length (currentMovies s)).
Proof.
  intros Hr Hn Hne.
  assert (Hc : 0 < filteredCount s).
  { unfold filteredCount. destruct (filteredMovies s); [congruence |].
    simpl. lia. }
  pose proof (totalPages_bounds s Hn) as Hb.
  unfold pageInRange in Hr.
  assert (Hp : 1 <= currentPage s) by lia.
  pose proof (pageOf_length s (currentPage s) Hn Hp) as Hlen.
  change (pageOf s (currentPage s)) with (currentMovies s) in Hlen.
  unfold rangeFirst, rangeLast, endIndex, startIndex.
  assert (Hsize : 1 <= Z.of_nat (List.length (currentMovies s))) by nia.
  repeat split; try nia.
  intros E. rewrite E in Hsize. simpl in Hsize. lia.
Qed.

(** X18: "Next" and "Previous" undo each other on a page in range, and do
    nothing at the ends: "Previous" on page 1 and "Next" on the last
    page leave the state as it is. *)
Theorem next_previous_round_trip (s : State) :
  pageInRange s ->
  (currentPage s < totalPages s ->
   dispatch PreviousClick (dispatch NextClick s) = s)
  /\ (1 < currentPage s ->
      dispatch NextClick (dispatch PreviousClick s) = s)
  /\ (currentPage s = 1 -> dispatch PreviousClick s = s)
  /\ (totalPages s <= currentPage s -> dispatch NextClick s = s).
Proof.
  intros Hr. unfold pageInRange in Hr. repeat split.
  - intros Hlt. rewrite dispatch_Next.
    replace ((1 <? totalPages s) && negb (currentPage s =? totalPages s))
      with true
      by (symmetry; apply andb_true_iff; split;
          [apply Z.ltb_lt; lia | apply negb_true_iff, Z.eqb_neq; lia]).
    rewrite dispatch_Previous.
    change (totalPages (setCurrentPage _ s)) with (totalPages s).
    cbn [currentPage setCurrentPage].
    replace ((1 <? totalPages s)
             && negb (Z.min (totalPages s) (currentPage s + 1) =? 1))
      with true
      by (symmetry; apply andb_true_iff; split;
          [apply Z.ltb_lt; lia | apply negb_true_iff, Z.eqb_neq; lia]).
    apply setCurrentPage_same. lia.
  - intros Hgt. rewrite dispatch_Previous.
    replace ((1 <? totalPages s) && negb (currentPage s =? 1)) with true
      by (symmetry; apply andb_true_iff; split;
          [apply Z.ltb_lt; lia | apply negb_true_iff, Z.eqb_neq; lia]).
    rewrite dispatch_Next.
    change (totalPages (setCurrentPage _ s)) with (totalPages s).
    cbn [currentPage setCurrentPage].
    replace ((1 <? totalPages s)
             && negb (Z.max 1 (currentPage s - 1) =? totalPages s))
      with true
      by (symmetry; apply andb_true_iff; split;
          [apply Z.ltb_lt; lia | apply negb_true_iff, Z.eqb_neq; lia]).
    apply setCurrentPage_same. lia.
  - intros H1. rewrite dispatch_Previous.
    replace (currentPage s =? 1) with true by (symmetry; apply Z.eqb_eq; lia).
    rewrite andb_false_r. reflexivity.
  - intros Hge. rewrite dispatch_Next.
    destruct (Z.ltb_spec 1 (totalPages s)); simpl; [| reflexivity].
    replace (currentPage s =? totalPages s) with true
      by (symmetry; apply Z.eqb_eq; lia).
    reflexivity.
Qed.

End PageFacts.

(* ------------------------------------------------------------------ *)
(** * Groups and order *)

Section GroupFacts.
Context {host : Host}.

Lemma concat_perm {A : Type} (l l' : list (list A)) :
  Permutation l l' -> Permutation (List.concat l) (List.concat l').
Proof.
  induction 1; simpl.
  - constructor.
  - apply Permutation_app_head. assumption.
  - rewrite !app_assoc. apply Permutation_app_tail. apply Permutation_app_comm.
  - etransitivity; eassumption.
Qed.

Lemma buckets_concat (label : FilmHistory -> string) (ks : list string) :
  NoDup ks ->
  forall page,
    (forall movie, In movie page -> In (label movie) ks) ->
    Permutation
      (List.concat
         (map (fun k => filter (fun movie => (label movie =? k)%string) page)
              ks))
      page.
Proof.
  induction 1 as [| k ks Hk Hnd IH]; intros page Hall; simpl.
  - destruct page as [| m page]; [constructor |].
    destruct (Hall m (or_introl eq_refl)).
  - set (rest := filter (fun movie => negb (label movie =? k)%string) page).
    rewrite (map_ext_in _
               (fun k' => filter (fun movie => (label movie =? k')%string)
                                 rest)).
    + rewrite (IH rest).
      * symmetry.
        apply (JSFacts.partition_perm
                 (fun movie => (label movie =? k)%string)).
      * intros m Hm. subst rest. apply filter_In in Hm.
        destruct Hm as [Hm Hne]. apply negb_true_iff, String.eqb_neq in Hne.
        destruct (Hall m Hm) as [E | Hin]; [congruence | exact Hin].
    + intros k' Hk'. subst rest. rewrite filter_twice.
      apply filter_ext. intros m.
      destruct (String.eqb_spec (label m) k') as [-> | ?];
        [| symmetry; apply andb_false_r].
      destruct (String.eqb_spec k' k) as [-> | ?]; [tauto | reflexivity].
Qed.

Lemma bucketsInOrder_concat (label : FilmHistory -> string)
    (page : list FilmHistory) :
  Permutation (List.concat (map snd (bucketsInOrder label page))) page.
Proof.
  unfold bucketsInOrder. rewrite map_map. simpl.
  apply buckets_concat.
  - apply JSFacts.firstOccurrences_NoDup.
  - intros m Hm. apply JSFacts.firstOccurrences_In. apply in_map. exact Hm.
Qed.

(** X19: grouping neither adds nor removes entries: whatever the group key,
    the buckets listed, taken together, are a rearrangement of the page
    slice, and their sizes add up to the size of the page. *)
Theorem grouping_keeps_the_page (s : State) :
  Permutation
    (List.concat (map snd (JS.Object_entries (groupedMovies s))))
    (currentMovies s)
  /\ list_sum (map (fun e => List.length (snd e))
                   (JS.Object_entries (groupedMovies s)))
     = List.length (currentMovies s).
Proof.
  assert (P : Permutation
                (List.concat (map snd (JS.Object_entries (groupedMovies s))))
                (currentMovies s)).
  { destruct (groupBy s) eqn:Hg.
    - unfold groupedMovies. rewrite Hg. simpl. rewrite app_nil_r. reflexivity.
    - rewrite <- (concat_perm _ _
                    (Permutation_map snd
                       (JSFacts.Object_entries_perm (groupedMovies s)))).
      rewrite groups_created_in_encounter_order by congruence.
      apply bucketsInOrder_concat.
    - rewrite <- (concat_perm _ _
                    (Permutation_map snd
                       (JSFacts.Object_entries_perm (groupedMovies s)))).
      rewrite groups_created_in_encounter_order by congruence.
      apply bucketsInOrder_concat. }
  split; [exact P |].
  rewrite <- (Permutation_length P).
  generalize (JS.Object_entries (groupedMovies s)). intros l.
  induction l as [| e l IH]; simpl; [reflexivity |].
  rewrite length_app, IH. reflexivity.
Qed.

(** X20: grouped by month or by year, the buckets listed have distinct
    labels, none is empty, each holds exactly the entries of the page
    that carry its label, in page order, and every entry of the page has
    its bucket. *)
Theorem buckets_partition_the_page (s : State) :
  groupBy s <> group_none ->
  let entries := JS.Object_entries (groupedMovies s) in
  let label := groupLabel (groupBy s) in
  NoDup (map fst entries)
  /\ (forall k bucket,
        In (k, bucket) entries ->
        bucket <> []
        /\ bucket
           = filter (fun movie => (label movie =? k)%string) (currentMovies s))
  /\ (forall movie,
        In movie (currentMovies s) -> In (label movie) (map fst entries)).
Proof.
  intros Hg entries label.
  assert (P : Permutation (bucketsInOrder label (currentMovies s)) entries).
  { subst entries label.
    rewrite <- (groups_created_in_encounter_order s Hg).
    apply JSFacts.Object_entries_perm. }
  assert (K : Permutation (firstOccurrences (map label (currentMovies s)))
                          (map fst entries)).
  { rewrite <- (bucketsInOrder_keys label (currentMovies s)).
    apply Permutation_map. exact P. }
  split; [| split].
  - apply (Permutation_NoDup K). apply JSFacts.firstOccurrences_NoDup.
  - intros k bucket Hin.
    apply (Permutation_in _ (Permutation_sym P)) in Hin.
    unfold bucketsInOrder in Hin. apply in_map_iff in Hin.
    destruct Hin as (k' & [= <- <-] & Hk).
    split; [| reflexivity].
    rewrite JSFacts.firstOccurrences_In in Hk. apply in_map_iff in Hk.
    destruct Hk as (m & Hm & Hin).
    intros E.
    assert (Hf : In m (filter (fun movie => (label movie =? k')%string)
                              (currentMovies s))).
    { apply filter_In. split; [exact Hin |]. apply String.eqb_eq. exact Hm. }
    rewrite E in Hf. destruct Hf.
  - intros m Hm. apply (Permutation_in _ K).
    apply JSFacts.firstOccurrences_In. apply in_map. exact Hm.
Qed.

Lemma sort_insert_filter {A : Type} (cmp : A -> A -> JS.number)
    (p : A -> bool) (x : A) (l : list A) :
  (forall a b, p a = true -> p b = true -> JS.before cmp a b) ->
  filter p (JS.sort_insert cmp x l)
  = if p x then x :: filter p l else filter p l.
Proof.
  intros Hp. induction l as [| y l IH]; simpl.
  - destruct (p x); reflexivity.
  - destruct (Z.leb_spec (JS.cmp_sign (cmp x y)) 0) as [Hle | Hgt]; simpl.
    + destruct (p x); reflexivity.
    + rewrite IH. destruct (p x) eqn:Px, (p y) eqn:Py; try reflexivity.
      specialize (Hp x y Px Py). unfold JS.before in Hp. lia.
Qed.

Lemma sort_filter {A : Type} (cmp : A -> A -> JS.number) (p : A -> bool)
    (l : list A) :
  (forall a b, p a = true -> p b = true -> JS.before cmp a b) ->
  filter p (JS.sort cmp l) = filter p l.
Proof.
  intros Hp. induction l as [| x l IH]; simpl; [reflexivity |].
  rewrite sort_insert_filter by exact Hp. rewrite IH. reflexivity.
Qed.

(** X21: the sort is stable: entries that the comparator of the active key
    does not place one after the other (entries with the same key) keep
    the relative order they had after filtering. *)
Theorem sort_keeps_ties_in_order (s : State) (tie : FilmHistory -> bool) :
  (forall a b, tie a = true -> tie b = true ->
               JS.before (compareMovies (sortBy s)) a b) ->
  filter tie (filteredMovies (applyFilters s)) = filter tie (filterStage s).
Proof.
  intros Htie. simpl. apply sort_filter. exact Htie.
Qed.

(** X22: sorted by title the entries stand in ascending order of their names
    under the host's string comparison; sorted by duration they stand in
    descending order of their durations, a missing duration counting as
    0.  Both are rearrangements of the filtered entries. *)
Theorem sort_by_name_and_duration (s : State) :
  (forall a b, localeCompare a b <= 0 \/ localeCompare b a <= 0) ->
  (forall a b c, localeCompare a b <= 0 -> localeCompare b c <= 0 ->
                 localeCompare a c <= 0) ->
  let byName := filteredMovies (applyFilters (setSortBy by_name s)) in
  let byDuration := filteredMovies (applyFilters (setSortBy by_duration s)) in
  Permutation (filterStage s) byName
  /\ StronglySorted (fun a b => localeCompare (name a) (name b) <= 0) byName
  /\ Permutation (filterStage s) byDuration
  /\ StronglySorted (fun a b => durationOf b <= durationOf a) byDuration.
Proof.
  intros Htotal Htrans byName byDuration.
  assert (Hname : forall a b,
             JS.before (compareMovies by_name) a b
             <-> localeCompare (name a) (name b) <= 0).
  { intros a b. unfold JS.before, compareMovies, JS.or_str, JS.truthy. simpl.
    destruct (String.eqb_spec (name a) ""), (String.eqb_spec (name b) "");
      simpl; try rewrite e; try rewrite e0; tauto. }
  assert (Hdur : forall a b,
             JS.before (compareMovies by_duration) a b
             <-> durationOf b <= durationOf a).
  { intros a b. unfold JS.before, compareMovies. simpl.
    rewrite !or_zero_durationOf. lia. }
  repeat split.
  - subst byName. simpl. apply JSFacts.sort_perm.
  - subst byName. simpl.
    apply (StronglySorted_weaken (fun _ => True)
             (JS.before (compareMovies by_name))).
    + intros a b _ _. apply Hname.
    + apply Forall_forall. intros; exact I.
    + apply (JSFacts.sort_sorted _ (fun _ => True)).
      * intros a b _ _. rewrite !Hname. apply Htotal.
      * intros a b c _ _ _. rewrite !Hname. apply Htrans.
      * apply Forall_forall. intros; exact I.
  - subst byDuration. simpl. apply JSFacts.sort_perm.
  - subst byDuration. simpl.
    apply (StronglySorted_weaken (fun _ => True)
             (JS.before (compareMovies by_duration))).
    + intros a b _ _. apply Hdur.
    + apply Forall_forall. intros; exact I.
    + apply (JSFacts.sort_sorted _ (fun _ => True)).
      * intros a b _ _. rewrite !Hdur. lia.
      * intros a b c _ _ _. rewrite !Hdur. lia.
      * apply Forall_forall. intros; exact I.
Qed.

End GroupFacts.

(* ------------------------------------------------------------------ *)
(** * The genre count of the profile page *)

Section ObjectCounts.

Lemma obj_get_set_same {V : Type} (o : JS.Obj V) (k : string) (v : V) :
  JS.obj_get (JS.obj_set o k v) k = Some v.
Proof.
  induction o as [| [k' v'] o IH]; simpl.
  - rewrite String.eqb_refl. reflexivity.
  - destruct (String.eqb_spec k' k) as [-> | Hne]; simpl.
    + rewrite String.eqb_refl. reflexivity.
    + destruct (String.eqb_spec k' k); [congruence | exact IH].
Qed.

Lemma obj_get_set_other {V : Type} (o : JS.Obj V) (k k' : string) (v : V) :
  k' <> k -> JS.obj_get (JS.obj_set o k v) k' = JS.obj_get o k'.
Proof.
  intros Hne. induction o as [| [k0 v0] o IH]; simpl.
  - destruct (String.eqb_spec k k'); [congruence | reflexivity].
  - destruct (String.eqb_spec k0 k) as [-> | H0]; simpl.
    + destruct (String.eqb_spec k k'); [congruence | reflexivity].
    + destruct (String.eqb_spec k0 k'); [reflexivity | exact IH].
Qed.

Lemma obj_set_keys {V : Type} (o : JS.Obj V) (k : string) (v : V) :
  NoDup (map fst o) ->
  NoDup (map fst (JS.obj_set o k v))
  /\ forall k', In k' (map fst (JS.obj_set o k v)) <-> In k' (map fst o) \/ k' = k.
Proof.
  induction o as [| [k0 v0] o IH]; simpl; intros Hnd.
  - split; [repeat constructor; intros [] |]. intros k'. intuition.
  - inversion Hnd as [| ? ? Hk0 Hnd']; subst.
    destruct (String.eqb_spec k0 k) as [-> | Hne]; simpl.
    + split; [exact Hnd |]. intros k'. intuition.
    + destruct (IH Hnd') as [H1 H2]. split.
      * constructor; [| exact H1]. rewrite H2. intuition.
      * intros k'. rewrite H2. intuition.
Qed.

Lemma obj_get_In {V : Type} (o : JS.Obj V) (k : string) (v : V) :
  NoDup (map fst o) -> (JS.obj_get o k = Some v <-> In (k, v) o).
Proof.
  induction o as [| [k0 v0] o IH]; simpl; intros Hnd.
  - split; [discriminate | tauto].
  - inversion Hnd as [| ? ? Hk0 Hnd']; subst.
    destruct (String.eqb_spec k0 k) as [-> | Hne].
    + split.
      * intros [= ->]. left. reflexivity.
      * intros [[= ->] | Hin]; [reflexivity |].
        exfalso. apply Hk0. apply (in_map fst) in Hin. exact Hin.
    + rewrite (IH Hnd'). split; [tauto |].
      intros [[= -> ->] | Hin]; [congruence | exact Hin].
Qed.

Lemma Math_max_bounds (values : list Z) (last : Z) :
  last <= JS.Math_max values last
  /\ (forall v, In v values -> v <= JS.Math_max values last)
  /\ (JS.Math_max values last = last \/ In (JS.Math_max values last) values).
Proof.
  unfold JS.Math_max. induction values as [| x values IH]; simpl.
  - split; [lia |]. split; [tauto | left; reflexivity].
  - destruct IH as (H1 & H2 & H3). split; [lia |]. split.
    + intros v [<- | Hv]; [lia |]. specialize (H2 v Hv). lia.
    + destruct (Z.max_spec x (fold_right Z.max last values)) as [[_ E] | [_ E]];
        rewrite E; tauto.
Qed.

Lemma countGenre_fold (movies : list Profile.Movie) (acc : JS.Obj Z) :
  NoDup (map fst acc) ->
  NoDup (map fst (fold_left Profile.countGenre movies acc))
  /\ forall g,
       Profile.or_zero (JS.obj_get (fold_left Profile.countGenre movies acc) g)
       = Profile.or_zero (JS.obj_get acc g) + genreViews g movies.
Proof.
  revert acc. induction movies as [| m movies IH]; intros acc Hnd; simpl.
  - split; [exact Hnd |]. intros g. unfold genreViews. simpl. lia.
  - destruct (obj_set_keys acc (Profile.genre m)
                (Profile.or_zero (JS.obj_get acc (Profile.genre m)) + 1) Hnd)
      as [Hnd' _].
    destruct (IH _ Hnd') as [H1 H2]. split; [exact H1 |].
    intros g. rewrite H2. unfold Profile.countGenre, genreViews. simpl.
    destruct (String.eqb_spec (Profile.genre m) g) as [<- | Hne].
    + rewrite obj_get_set_same. simpl. lia.
    + rewrite obj_get_set_other by congruence. lia.
Qed.

(** X23: "Top Genre Views" on the profile page is the number of movies of
    the most watched genre: no genre has more movies, some genre of the
    list has exactly that many, and it is 0 for an empty list; it never
    exceeds the number of movies.  (For genres that are not the name of a
    property every object inherits, such as "constructor".) *)
Theorem top_genre_is_most_watched (movies : list Profile.Movie) :
  Forall (fun movie => Profile.plainGenre movie = true) movies ->
  let top := Profile.topGenreCount movies in
  (forall g, genreViews g movies <= top)
  /\ (movies <> [] ->
      exists movie,
        In movie movies /\ genreViews (Profile.genre movie) movies = top)
  /\ (movies = [] -> top = 0)
  /\ 0 <= top <= Profile.totalMovies movies.
Proof.
  intros _ top.
  destruct (countGenre_fold movies [] (NoDup_nil _)) as [Hnd Hcount].
  fold (Profile.favoriteGenres movies) in Hnd, Hcount.
  simpl in Hcount.
  destruct (Math_max_bounds
              (Profile.Object_values (Profile.favoriteGenres movies)) 0)
    as (H0 & Hub & Hatt).
  fold (Profile.topGenreCount movies) in H0, Hub, Hatt. fold top in H0, Hub, Hatt.
  assert (Hviews : forall g, genreViews g movies <= top).
  { intros g.
    destruct (JS.obj_get (Profile.favoriteGenres movies) g) as [v |] eqn:Hg.
    - specialize (Hcount g). rewrite Hg in Hcount. simpl in Hcount.
      rewrite <- Hcount. apply Hub.
      apply (obj_get_In _ _ _ Hnd) in Hg.
      unfold Profile.Object_values.
      apply (Permutation_in _
               (Permutation_map snd
                  (JSFacts.Object_entries_perm
                     (Profile.favoriteGenres movies)))).
      apply (in_map snd) in Hg. exact Hg.
    - specialize (Hcount g). rewrite Hg in Hcount. simpl in Hcount. lia. }
  assert (Hlen : forall g, genreViews g movies <= Profile.totalMovies movies).
  { intros g. unfold genreViews, Profile.totalMovies.
    pose proof (filter_length_le
                  (fun m => (Profile.genre m =? g)%string) movies). lia. }
  assert (Hsome : movies <> [] ->
                  exists movie,
                    In movie movies
                    /\ genreViews (Profile.genre movie) movies = top).
  { intros Hne. destruct movies as [| m0 rest] eqn:Em; [congruence |].
    rewrite <- Em in *.
    assert (H1 : 1 <= genreViews (Profile.genre m0) movies).
    { unfold genreViews. rewrite Em. simpl. rewrite String.eqb_refl.
      simpl. lia. }
    specialize (Hviews (Profile.genre m0)).
    destruct Hatt as [E | Hin]; [lia |].
    unfold Profile.Object_values in Hin. apply in_map_iff in Hin.
    destruct Hin as ([k v] & Hv & Hin). simpl in Hv. subst v.
    apply (Permutation_in _
             (Permutation_sym
                (JSFacts.Object_entries_perm
                   (Profile.favoriteGenres movies)))) in Hin.
    apply (obj_get_In _ _ _ Hnd) in Hin.
    specialize (Hcount k). rewrite Hin in Hcount. simpl in Hcount.
    assert (Hpos : 0 < genreViews k movies) by lia.
    unfold genreViews in Hpos.
    destruct (filter (fun m => (Profile.genre m =? k)%string) movies)
      as [| m ms] eqn:Ef; [simpl in Hpos; lia |].
    assert (Hm : In m (filter (fun m => (Profile.genre m =? k)%string) movies))
      by (rewrite Ef; left; reflexivity).
    apply filter_In in Hm. destruct Hm as [Hm Hk].
    apply String.eqb_eq in Hk. exists m. split; [exact Hm |].
    rewrite Hk. lia. }
  split; [exact Hviews |]. split; [exact Hsome |]. split.
  - intros ->. reflexivity.
  - split; [exact H0 |].
    destruct movies as [| m0 rest] eqn:Em; [reflexivity |].
    rewrite <- Em in *.
    destruct Hsome as (m & _ & <-); [rewrite Em; discriminate |].
    apply Hlen.
Qed.

End ObjectCounts.

(* ------------------------------------------------------------------ *)
(** * The further properties on the sample histories *)

Module MoreScenarioFacts.

#[local] Existing Instance RefHost.ref_host.

Import Sample Scenario.

Lemma reset_shows_everything_witness :
  filteredMovies searched = [beta]
  /\ trim "" = ""
  /\ filterStage (dispatch ResetClick searched) = [alpha; beta; gamma; delta]
  /\ filteredCount (dispatch ResetClick searched) = 4.
Proof.
  assert (H : trim "" = "") by reflexivity.
  pose proof (@reset_shows_everything RefHost.ref_host searched H)
    as (H1 & _ & H3 & _).
  split; [reflexivity |]. split; [exact H |]. split; [exact H1 |].
  rewrite H3. reflexivity.
Defined.

Lemma inverted_range_keeps_undated_witness :
  Date_parse (from (dateRange inverted)) = JS.Int 1704067200000
  /\ Date_parse (to (dateRange inverted)) = JS.Int 1672531200000
  /\ (In gamma (dateStage inverted (movies inverted))
      <-> In gamma (movies inverted)
          /\ (undated gamma \/ movieDate gamma = Some JS.NaN)).
Proof.
  assert (Hf : from (dateRange inverted) <> "") by discriminate.
  assert (Hu : to (dateRange inverted) <> "") by discriminate.
  assert (Pf : Date_parse (from (dateRange inverted)) = JS.Int 1704067200000)
    by reflexivity.
  assert (Pu : Date_parse (to (dateRange inverted)) = JS.Int 1672531200000)
    by reflexivity.
  split; [exact Pf |]. split; [exact Pu |].
  apply (@inverted_range_keeps_undated RefHost.ref_host inverted
           (movies inverted) gamma _ _ Hf Hu Pf Pu).
  reflexivity.
Defined.

Lemma selection_stays_distinct_witness :
  NoDup (selectedGenres four)
  /\ NoDup (selectedGenres (dispatch (GenreChip "drama") four)).
Proof.
  assert (H : NoDup (selectedGenres four)) by constructor.
  split; [exact H |].
  apply (selection_stays_distinct (GenreChip "drama") four H).
Defined.

Lemma offered_chip_finds_a_movie_witness :
  trim "" = "" /\ In "drama" (availableGenres searched)
  /\ exists movie,
       In movie (filteredMovies
                   (dispatch (GenreChip "drama")
                             (dispatch ResetClick searched)))
       /\ genre movie = Some "drama".
Proof.
  assert (H : trim "" = "") by reflexivity.
  assert (Hg : In "drama" (availableGenres searched))
    by (right; left; reflexivity).
  split; [exact H |]. split; [exact Hg |].
  apply (@offered_chip_finds_a_movie RefHost.ref_host "drama" searched H Hg).
Defined.

Lemma pages_cover_filtered_list_witness :
  0 < itemsPerPage secondPage
  /\ pageNumbers (totalPages secondPage) = [1; 2]
  /\ List.concat (map (pageOf secondPage) [1; 2]) = filteredMovies secondPage.
Proof.
  assert (H : 0 < itemsPerPage secondPage) by reflexivity.
  split; [exact H |]. split; [reflexivity |].
  apply (pages_cover_filtered_list secondPage H).
Defined.

Lemma page_sizes_witness :
  0 < itemsPerPage secondPage /\ 1 <= 2
  /\ Z.of_nat (List.length (pageOf secondPage 2)) = 1.
Proof.
  assert (H : 0 < itemsPerPage secondPage) by reflexivity.
  assert (Hp : 1 <= 2) by lia.
  split; [exact H |]. split; [exact Hp |].
  destruct (page_sizes secondPage 2 H Hp) as (_ & Hfull & _).
  assert (Hle : 2 <= totalPages secondPage) by (vm_compute; discriminate).
  specialize (Hfull Hle). change (itemsPerPage secondPage) with 1 in Hfull.
  lia.
Defined.

Lemma page_stays_in_range_witness :
  pageInRange secondPage /\ pageInRange (dispatch NextClick secondPage).
Proof.
  assert (H : pageInRange secondPage)
    by (split; vm_compute; discriminate).
  split; [exact H |].
  apply (page_stays_in_range NextClick secondPage H).
Defined.

Lemma shown_range_matches_page_witness :
  pageInRange secondPage
  /\ (rangeFirst secondPage, rangeLast secondPage) = (2, 2)
  /\ rangeLast secondPage - rangeFirst secondPage + 1
     = Z.of_nat (List.length (currentMovies secondPage)).
Proof.
  assert (H : pageInRange secondPage)
    by (split; vm_compute; discriminate).
  assert (Hn : 0 < itemsPerPage secondPage) by reflexivity.
  assert (Hne : filteredMovies secondPage <> []) by discriminate.
  split; [exact H |]. split; [reflexivity |].
  destruct (shown_range_matches_page secondPage H Hn Hne) as (_ & _ & _ & E).
  exact E.
Defined.

Lemma next_previous_round_trip_witness :
  pageInRange secondPage
  /\ dispatch NextClick (dispatch PreviousClick secondPage) = secondPage.
Proof.
  assert (H : pageInRange secondPage)
    by (split; vm_compute; discriminate).
  split; [exact H |].
  destruct (next_previous_round_trip secondPage H) as (_ & Hback & _).
  apply Hback. reflexivity.
Defined.

Lemma buckets_partition_the_page_witness :
  groupBy byYear <> group_none
  /\ NoDup (map fst (JS.Object_entries (groupedMovies byYear))).
Proof.
  assert (H : groupBy byYear <> group_none) by discriminate.
  split; [exact H |].
  pose proof (buckets_partition_the_page byYear H) as X.
  cbv zeta in X. destruct X as [Hnd _]. exact Hnd.
Defined.

Lemma sort_keeps_ties_in_order_witness :
  filterStage ties = [alpha; beta; epsilon]
  /\ filteredMovies ties = [beta; alpha; epsilon]
  /\ filter is85 (filteredMovies (applyFilters ties))
     = filter is85 (filterStage ties).
Proof.
  split; [reflexivity |]. split; [reflexivity |].
  apply (@sort_keeps_ties_in_order RefHost.ref_host ties is85).
  intros a b Ha Hb. unfold is85 in Ha, Hb.
  apply Z.eqb_eq in Ha. apply Z.eqb_eq in Hb.
  unfold JS.before. change (sortBy ties) with by_duration.
  unfold compareMovies, JS.cmp_sign.
  rewrite !or_zero_durationOf, Ha, Hb. discriminate.
Defined.

Lemma sort_by_name_and_duration_witness :
  filteredMovies (applyFilters (setSortBy by_name four))
  = [alpha; beta; delta; gamma]
  /\ filteredMovies (applyFilters (setSortBy by_duration four))
     = [beta; delta; alpha; gamma]
  /\ StronglySorted (fun a b => durationOf b <= durationOf a)
       (filteredMovies (applyFilters (setSortBy by_duration four))).
Proof.
  split; [reflexivity |]. split; [reflexivity |].
  pose proof (@sort_by_name_and_duration RefHost.ref_host four
                RefHostFacts.compare_units_total
                RefHostFacts.compare_units_trans) as X.
  cbv zeta in X. destruct X as (_ & _ & _ & Hs). exact Hs.
Defined.

Lemma top_genre_is_most_watched_witness :
  Forall (fun movie => Profile.plainGenre movie = true) watched
  /\ Profile.topGenreCount watched = 2
  /\ genreViews "drama" watched <= Profile.topGenreCount watched.
Proof.
  assert (H : Forall (fun movie => Profile.plainGenre movie = true) watched)
    by (repeat constructor).
  split; [exact H |]. split; [reflexivity |].
  pose proof (top_genre_is_most_watched watched H) as X.
  cbv zeta in X. destruct X as [Hle _]. apply Hle.
Defined.

End MoreScenarioFacts.
